(** * Pipeline: generation of the Airflow program text

    A shallow embedding of [google/datalab/contrib/pipeline/_pipeline.py]
    and the properties of the text it generates.

    Python values are embedded as the inductive type [value]; a Python
    [dict] is an association list in insertion order whose keys are
    strings, pairwise distinct; an exception is the [Err] case of
    [result]. *)

From Stdlib Require Import String Ascii List ZArith Bool Lia.
From Stdlib Require Import DecimalString Permutation Sorted.
Import ListNotations.

Open Scope list_scope.
Open Scope string_scope.

(** ** Python values *)

Set Warnings "-register-all".

(** A float carries the text str() gives for it; a date or datetime object
    carries str() of it and its strftime method; any other object carries
    str() of it and its data attributes. The type [int] is that of [VInt]:
    a value of another integer type is an object. *)
Inductive value : Type :=
| VNone
| VBool (b : bool)
| VInt (n : Z)
| VFloat (text : string)
| VStr (s : string)
| VList (items : list value)
| VDict (items : list (string * value))
| VDatetime (text : string) (strftime : string -> string)
| VObject (text : string) (attrs : list (string * value)).

Inductive pytype : Type :=
| T_int | T_bool | T_float | T_NoneType | T_str | T_list | T_dict
| T_datetime | T_object.

Definition pytype_eqb (a b : pytype) : bool :=
  match a, b with
  | T_int, T_int | T_bool, T_bool | T_float, T_float
  | T_NoneType, T_NoneType | T_str, T_str | T_list, T_list
  | T_dict, T_dict | T_datetime, T_datetime | T_object, T_object => true
  | _, _ => false
  end.

(** [type(v)] *)
Definition type_of (v : value) : pytype :=
  match v with
  | VNone => T_NoneType
  | VBool _ => T_bool
  | VInt _ => T_int
  | VFloat _ => T_float
  | VStr _ => T_str
  | VList _ => T_list
  | VDict _ => T_dict
  | VDatetime _ _ => T_datetime
  | VObject _ _ => T_object
  end.

(** ** Exceptions *)

Inductive exn : Type :=
| KeyError (key : string)
| AttributeError (attr : string)
| TypeError.

Inductive result (A : Type) : Type :=
| Ok (a : A)
| Err (e : exn).

Arguments Ok {A} a.
Arguments Err {A} e.

Definition bind {A B : Type} (r : result A) (k : A -> result B) : result B :=
  match r with
  | Ok a => k a
  | Err e => Err e
  end.

Notation "x <- r ;; k" := (bind r (fun x => k))
  (at level 61, r at next level, right associativity).
Notation "' pat <- r ;; k" := (bind r (fun x => match x with pat => k end))
  (at level 61, pat pattern, r at next level, right associativity).

(** ** Dictionaries *)

Module Dict.

Section Ops.
Context {A : Type}.

Fixpoint lookup (k : string) (d : list (string * A)) : option A :=
  match d with
  | [] => None
  | (k', v) :: rest => if String.eqb k k' then Some v else lookup k rest
  end.

(** [k in d] *)
Definition mem (k : string) (d : list (string * A)) : bool :=
  match lookup k d with Some _ => true | None => false end.

(** [d[k] = v]: the value of an existing key is replaced where it
    stands, a new key goes to the end. *)
Fixpoint set (k : string) (v : A) (d : list (string * A))
  : list (string * A) :=
  match d with
  | [] => [(k, v)]
  | (k', v') :: rest =>
      if String.eqb k k' then (k', v) :: rest
      else (k', v') :: set k v rest
  end.

Definition keys (d : list (string * A)) : list string := map fst d.

(** Insertion of one item into a list sorted by key. *)
Fixpoint insert (x : string * A) (l : list (string * A))
  : list (string * A) :=
  match l with
  | [] => [x]
  | y :: rest =>
      if String.leb (fst x) (fst y) then x :: y :: rest
      else y :: insert x rest
  end.

(** [sorted(d.items())]: the keys of a dict are pairwise distinct, so
    the comparison of two items is decided by their keys, which
    compare character by character. *)
Fixpoint sorted (l : list (string * A)) : list (string * A) :=
  match l with
  | [] => []
  | x :: rest => insert x (sorted rest)
  end.

End Ops.

End Dict.

(** ** Strings: str() and str.format *)

Section Str.

(** repr() of a container, which str() of a list or of a dict returns;
    its text depends on the interpreter's repr() of strings. *)
Variable py_repr : value -> string.

(** [str(v)], which is also what a [{N}] field of [str.format] renders. *)
Definition py_str (v : value) : string :=
  match v with
  | VNone => "None"
  | VBool true => "True"
  | VBool false => "False"
  | VInt n => NilZero.string_of_int (Z.to_int n)
  | VFloat text => text
  | VStr s => s
  | VList _ | VDict _ => py_repr v
  | VDatetime text _ => text
  | VObject text _ => text
  end.

End Str.

Definition digit (c : ascii) : nat := nat_of_ascii c - 48.

(** [tmpl.format(args...)] for templates whose fields are [{0}] .. [{9}],
    with [{{] and [}}] for the braces themselves; the arguments are given
    as the strings str() makes of them. *)
Fixpoint format (tmpl : string) (args : list string) : string :=
  match tmpl with
  | EmptyString => EmptyString
  | String c rest =>
      if Ascii.eqb c "{" then
        match rest with
        | String d rest1 =>
            if Ascii.eqb d "{" then String "{" (format rest1 args)
            else
              match rest1 with
              | String e rest2 =>
                  if Ascii.eqb e "}"
                  then nth (digit d) args "" ++ format rest2 args
                  else String c (format rest args)
              | EmptyString => String c (format rest args)
              end
        | EmptyString => String c EmptyString
        end
      else if Ascii.eqb c "}" then
        match rest with
        | String d rest1 =>
            if Ascii.eqb d "}" then String "}" (format rest1 args)
            else String c (format rest args)
        | EmptyString => String c EmptyString
        end
      else String c (format rest args)
  end.

(** ** Access to values *)

(** The exception of [v.name(...)] when [v] has no method [name]. *)
Definition no_method (v : value) (name : string) : exn :=
  match v with
  | VObject _ attrs =>
      if Dict.mem name attrs then TypeError else AttributeError name
  | _ => AttributeError name
  end.

(** [v.get(k)] *)
Definition get (v : value) (k : string) : result value :=
  match v with
  | VDict d =>
      Ok (match Dict.lookup k d with Some x => x | None => VNone end)
  | _ => Err (no_method v "get")
  end.

(** [v.get(k, default)] *)
Definition get_default (v : value) (k : string) (default : value)
  : result value :=
  match v with
  | VDict d =>
      Ok (match Dict.lookup k d with Some x => x | None => default end)
  | _ => Err (no_method v "get")
  end.

(** [v[k]] for a string [k] *)
Definition getitem (v : value) (k : string) : result value :=
  match v with
  | VDict d =>
      match Dict.lookup k d with
      | Some x => Ok x
      | None => Err (KeyError k)
      end
  | _ => Err TypeError
  end.

(** [v.items()] *)
Definition items (v : value) : result (list (string * value)) :=
  match v with
  | VDict d => Ok d
  | _ => Err (no_method v "items")
  end.

(** [v.name] for a data attribute *)
Definition getattr (v : value) (name : string) : result value :=
  match v with
  | VObject _ attrs =>
      match Dict.lookup name attrs with
      | Some x => Ok x
      | None => Err (AttributeError name)
      end
  | _ => Err (AttributeError name)
  end.

(** [v.strftime(fmt)] *)
Definition strftime (v : value) (fmt : string) : result string :=
  match v with
  | VDatetime _ f => Ok (f fmt)
  | _ => Err (no_method v "strftime")
  end.

(** The characters of a string, one string each. A string here is a
    string of bytes, and a byte is a character of Python for ASCII text
    only. *)
Fixpoint chars (s : string) : list value :=
  match s with
  | EmptyString => []
  | String c rest => VStr (String c EmptyString) :: chars rest
  end.

(** The elements [for x in v] visits. *)
Definition iterate (v : value) : result (list value) :=
  match v with
  | VList l => Ok l
  | VStr s => Ok (chars s)
  | VDict d => Ok (map (fun kv => VStr (fst kv)) d)
  | _ => Err TypeError
  end.

(** ** The Pipeline class *)

Module Pipeline.

Record t : Type := {
  _spec_str : option string;
  _env : list (string * value);
  _name : string
}.

Definition __init__ (spec_str : option string) (name : string)
    (env : option (list (string * value))) : t :=
  {| _spec_str := spec_str;
     _env := match env with Some e => e | None => [] end;
     _name := name |}.

Definition _imports : string := "
from airflow import DAG
from airflow.operators.bash_operator import BashOperator
from airflow.contrib.operators.bigquery_operator import BigQueryOperator
from airflow.contrib.operators.bigquery_table_delete_operator import BigQueryTableDeleteOperator
from airflow.contrib.operators.bigquery_to_bigquery import BigQueryToBigQueryOperator
from airflow.contrib.operators.bigquery_to_gcs import BigQueryToCloudStorageOperator
from datetime import timedelta
from pytz import timezone
".

Definition airflow_default_args_format : string := "
default_args = {{
    'owner': 'Datalab',
    'depends_on_past': False,
    'email': ['{0}'],
    'start_date': {1},
    'end_date': {2},
    'email_on_failure': True,
    'email_on_retry': False,
    'retries': 1,
    'retry_delay': timedelta(minutes=1),
}}

".

Definition datetime_format : string := "%Y-%m-%dT%H:%M:%S".

Definition expr_format : string :=
  "datetime.datetime.strptime('{0}', '{1}').replace(tzinfo=timezone('UTC'))".

Definition task_type_to_operator_prefix_mapping : list (string * string) :=
  [ ("bq", "BigQuery");
    ("bq.execute", "BigQuery");
    ("bq.query", "BigQuery");
    ("bq-table-delete", "BigQueryTableDelete");
    ("bq.extract", "BigQueryToCloudStorage");
    ("bash", "Bash") ].

Definition bq_defaults : list (string * value) :=
  [ ("use_legacy_sql", VBool false) ].

Section Methods.

(** repr() of containers, as in [py_str]. *)
Variable py_repr : value -> string.

(** The external configuration parser
    [utils.commands.parse_config(text, env)]. *)
Variable parse_config : string -> list (string * value) -> result value.

Local Abbreviation str := (py_str py_repr).

Definition _get_datetime_expr_str (datetime_obj : value) : result string :=
  stamp <- strftime datetime_obj datetime_format ;;
  Ok (format expr_format [stamp; datetime_format]).

Definition _get_default_args (email start_date end_date : value)
  : result string :=
  start_date_str <- _get_datetime_expr_str start_date ;;
  end_date_str <- _get_datetime_expr_str end_date ;;
  Ok (format airflow_default_args_format
             [str email; start_date_str; end_date_str]).

(** A type token that is a list or a dict cannot be hashed for the
    lookup in the table; a token that is no string is no key of it. *)
Definition _get_operator_classname (task_detail_type : value)
  : result string :=
  let format_string := "{0}Operator" in
  match task_detail_type with
  | VList _ | VDict _ => Err TypeError
  | VStr token =>
      match Dict.lookup token task_type_to_operator_prefix_mapping with
      | Some operator_class_prefix =>
          Ok (format format_string [operator_class_prefix])
      | None => Ok (format format_string [str task_detail_type])
      end
  | _ => Ok (format format_string [str task_detail_type])
  end.

Definition _get_operator_param_name_and_value
    (param_name : string) (param_value : value)
    (operator_class_name : string) : result (string * value) :=
  if String.eqb operator_class_name "BigQueryOperator" then
    if String.eqb param_name "query" then
      sql <- getattr param_value "sql" ;;
      Ok ("bql", sql)
    else Ok (param_name, param_value)
  else Ok (param_name, param_value).

(** The task-parameter mapping after the call, which changes it in
    place. *)
Definition _add_default_override_params
    (task_details : list (string * value)) (operator_class_name : string)
  : list (string * value) :=
  if String.eqb operator_class_name "BigQueryOperator" then
    fold_left
      (fun details '(param_name, param_value) =>
         if negb (Dict.mem param_name details)
         then Dict.set param_name param_value details
         else details)
      bq_defaults task_details
  else task_details.

Definition _get_param_format_string (param_value : value) : string :=
  if existsb (pytype_eqb (type_of param_value))
             [T_int; T_bool; T_float; T_NoneType]
  then ", {0}={1}"
  else ", {0}='{1}'".

(** The loop of [_get_operator_definition] over the sorted items of the
    mapping, from the parameter string it has built so far. *)
Fixpoint operator_params (operator_classname : string)
    (sorted_items : list (string * value)) (param_string : string)
  : result string :=
  match sorted_items with
  | [] => Ok param_string
  | (param_name, param_value) :: rest =>
      if existsb (String.eqb param_name) ["type"; "up_stream"]
      then operator_params operator_classname rest param_string
      else
        let param_format_string :=
          _get_param_format_string param_value in
        '(operator_param_name, operator_param_value) <-
          _get_operator_param_name_and_value
            param_name param_value operator_classname ;;
        operator_params operator_classname rest
          (param_string ++
           format param_format_string
                  [operator_param_name; str operator_param_value])
  end.

(** The mapping after the call, and the statement or the exception.
    [task_details['type']] of anything but a dict is a TypeError. *)
Definition _get_operator_definition (task_id : string)
    (task_details : value) : value * result string :=
  match task_details with
  | VDict details =>
      match Dict.lookup "type" details with
      | None => (task_details, Err (KeyError "type"))
      | Some operator_type =>
          let param_string := format "task_id='{0}_id'" [task_id] in
          match _get_operator_classname operator_type with
          | Err e => (task_details, Err e)
          | Ok operator_classname =>
              let details' :=
                _add_default_override_params details operator_classname in
              (VDict details',
               param_string' <-
                 operator_params operator_classname
                   (Dict.sorted details') param_string ;;
               Ok (format "{0} = {1}({2}, dag=dag)
" [task_id; operator_classname; param_string']))
          end
      end
  | _ => (task_details, Err TypeError)
  end.

Definition _get_dag_definition (self : t) (schedule_interval : value)
  : string :=
  format "dag = DAG(dag_id='{0}', schedule_interval='{1}', default_args=default_args)

" [_name self; str schedule_interval].

(** The loop of [_get_dependency_definition]. *)
Fixpoint set_upstream_loop (task_id : string) (dependencies : list value)
    (set_upstream_statements : string) : string :=
  match dependencies with
  | [] => set_upstream_statements
  | dependency :: rest =>
      set_upstream_loop task_id rest
        (set_upstream_statements ++
         format "{0}.set_upstream({1})" [task_id; str dependency] ++ "
")
  end.

Definition _get_dependency_definition (task_id : string)
    (dependencies : value) : result string :=
  elements <- iterate dependencies ;;
  Ok (set_upstream_loop task_id elements "").

(** The loop of [py] over the sorted tasks. The mapping of a task is
    changed in place by [_get_operator_definition], and its [up_stream] is
    read from it after that call. Two tasks that share one mapping object
    get the texts of two equal mappings: the default is added on the first
    visit and found present on the next. *)
Fixpoint tasks_loop (sorted_tasks : list (string * value))
    (task_definitions up_steam_statements : string)
  : result (string * string) :=
  match sorted_tasks with
  | [] => Ok (task_definitions, up_steam_statements)
  | (task_id, task_details) :: rest =>
      let (task_details', task_def_or_exn) :=
        _get_operator_definition task_id task_details in
      task_def <- task_def_or_exn ;;
      dependencies <- get_default task_details' "up_stream" (VList []) ;;
      dependency_def <- _get_dependency_definition task_id dependencies ;;
      tasks_loop rest (task_definitions ++ task_def)
                 (up_steam_statements ++ dependency_def)
  end.

Definition py (self : t) : result (option string) :=
  match _spec_str self with
  | None | Some EmptyString => Ok None
  | Some spec_str =>
      dag_spec <- parse_config spec_str (_env self) ;;
      schedule <- get dag_spec "schedule" ;;
      start_datetime_obj <- get schedule "start_date" ;;
      schedule <- get dag_spec "schedule" ;;
      end_datetime_obj <- get schedule "end_date" ;;
      email <- getitem dag_spec "email" ;;
      default_args <-
        _get_default_args email start_datetime_obj end_datetime_obj ;;
      schedule <- get dag_spec "schedule" ;;
      schedule_interval <- getitem schedule "schedule_interval" ;;
      let dag_definition := _get_dag_definition self schedule_interval in
      tasks <- getitem dag_spec "tasks" ;;
      task_items <- items tasks ;;
      '(task_definitions, up_steam_statements) <-
        tasks_loop (Dict.sorted task_items) "" "" ;;
      Ok (Some (_imports ++ default_args ++ dag_definition ++
                task_definitions ++ up_steam_statements))
  end.

End Methods.

End Pipeline.

(** ** Vocabulary of the statements *)

(** Concatenation of a list of texts. *)
Definition join (l : list string) : string := fold_right append "" l.

Definition key_le {A : Type} (x y : string * A) : Prop :=
  (fst x <=? fst y) = true.

Definition key_lt {A : Type} (x y : string * A) : Prop :=
  (fst x <? fst y) = true.

(** A mapping as Python has it: its keys are pairwise distinct. *)
Definition well_formed {A : Type} (d : list (string * A)) : Prop :=
  NoDup (Dict.keys d).

(** The results of [f] on the elements of [l], up to the first exception. *)
Fixpoint for_each {A B : Type} (f : A -> result B) (l : list A)
  : result (list B) :=
  match l with
  | [] => Ok []
  | x :: rest => y <- f x ;; ys <- for_each f rest ;; Ok (y :: ys)
  end.

(** The keys [_get_operator_definition] skips. *)
Definition reserved (k : string) : bool :=
  existsb (String.eqb k) ["type"; "up_stream"].

(** The generic parameters of a mapping: the items whose key is not
    reserved. *)
Definition generic (l : list (string * value)) : list (string * value) :=
  filter (fun kv => negb (reserved (fst kv))) l.

Section Texts.

Variable py_repr : value -> string.

(** The text one parameter adds to the parameter string. *)
Definition param_text (operator_classname : string) (kv : string * value)
  : result string :=
  '(name, v) <-
    Pipeline._get_operator_param_name_and_value
      (fst kv) (snd kv) operator_classname ;;
  Ok (format (Pipeline._get_param_format_string (snd kv))
             [name; py_str py_repr v]).

(** The instantiation statement and the dependency statements of one
    task. *)
Definition task_texts (task : string * value) : result (string * string) :=
  let (task_details', task_def_or_exn) :=
    Pipeline._get_operator_definition py_repr (fst task) (snd task) in
  task_def <- task_def_or_exn ;;
  dependencies <- get_default task_details' "up_stream" (VList []) ;;
  dependency_def <-
    Pipeline._get_dependency_definition py_repr (fst task) dependencies ;;
  Ok (task_def, dependency_def).

(** One dependency statement. *)
Definition set_upstream_text (task_id : string) (dependency : value)
  : string :=
  task_id ++ ".set_upstream(" ++ py_str py_repr dependency ++ ")
".

End Texts.

(** The types whose values are emitted without quotes. *)
Definition unquoted_type (v : value) : bool :=
  match v with
  | VInt _ | VBool _ | VFloat _ | VNone => true
  | _ => false
  end.

(** Every [query] parameter of the mapping has a [sql] attribute. *)
Definition query_resolves (d : list (string * value)) : Prop :=
  forall q, Dict.lookup "query" d = Some q ->
            exists sql, getattr q "sql" = Ok sql.


(** The texts of the head of the program. *)
Definition datetime_expr (stamp : string) : string :=
  "datetime.datetime.strptime('" ++ stamp ++
  "', '%Y-%m-%dT%H:%M:%S').replace(tzinfo=timezone('UTC'))".

Definition default_args_block (email start_expr end_expr : string) : string :=
  "
default_args = {
    'owner': 'Datalab',
    'depends_on_past': False,
    'email': ['" ++ email ++ "'],
    'start_date': " ++ start_expr ++ ",
    'end_date': " ++ end_expr ++ ",
    'email_on_failure': True,
    'email_on_retry': False,
    'retries': 1,
    'retry_delay': timedelta(minutes=1),
}

".

Definition dag_statement (name schedule_interval : string) : string :=
  "dag = DAG(dag_id='" ++ name ++ "', schedule_interval='" ++
  schedule_interval ++ "', default_args=default_args)

".

(** ** A configuration to run the definitions on *)

Module Example.

(** A stand-in for repr() of containers. *)
Definition repr (v : value) : string := "[...]".

Definition datetime (text stamp : string) : value :=
  VDatetime text (fun _ => stamp).

(** An object of the execution context with a [sql] attribute. *)
Definition query : value :=
  VObject "<Query>" [("sql", VStr "SELECT 1")].


Definition bq_task : list (string * value) :=
  [ ("type", VStr "bq.query"); ("query", query) ].

Definition bash_task : list (string * value) :=
  [ ("type", VStr "bash");
    ("up_stream", VList [VStr "x"; VStr "y"]);
    ("retries", VInt 2);
    ("bash_command", VStr "date") ].

Definition schedule : list (string * value) :=
  [ ("start_date", datetime "2017-01-01 00:00:00" "2017-01-01T00:00:00");
    ("end_date", datetime "2017-01-02 00:00:00" "2017-01-02T00:00:00");
    ("schedule_interval", VStr "@daily") ].

Definition tasks : list (string * value) :=
  [ ("b", VDict bash_task); ("a", VDict bq_task) ].

Definition config : list (string * value) :=
  [ ("email", VStr "me@example.com");
    ("schedule", VDict schedule);
    ("tasks", VDict tasks) ].

(** The same configuration without its [schedule]. *)
Definition config_no_schedule : list (string * value) :=
  [ ("email", VStr "me@example.com"); ("tasks", VDict tasks) ].

(** The same configuration with its tasks in the other insertion
    order. *)
Definition tasks_a_b : list (string * value) :=
  [ ("a", VDict bq_task); ("b", VDict bash_task) ].

Definition config_a_b : list (string * value) :=
  [ ("email", VStr "me@example.com");
    ("schedule", VDict schedule);
    ("tasks", VDict tasks_a_b) ].

(** Configurations that lack a key. *)
Definition config_no_email : list (string * value) :=
  [ ("schedule", VDict schedule); ("tasks", VDict tasks) ].

Definition config_no_tasks : list (string * value) :=
  [ ("email", VStr "me@example.com"); ("schedule", VDict schedule) ].

Definition untyped_task : list (string * value) :=
  [ ("bash_command", VStr "date") ].

Definition config_no_type : list (string * value) :=
  [ ("email", VStr "me@example.com");
    ("schedule", VDict schedule);
    ("tasks", VDict [ ("c", VDict untyped_task); ("a", VDict bq_task) ]) ].

Definition custom_task : list (string * value) :=
  [ ("type", VStr "custom"); ("retries", VInt 3) ].

Definition parse (cfg : list (string * value))
    (text : string) (env : list (string * value)) : result value :=
  Ok (VDict cfg).

(** A parser of two texts. *)
Definition parse_two (text : string) (env : list (string * value))
  : result value :=
  if String.eqb text "tasks: {b: ..., a: ...}"
  then Ok (VDict config) else Ok (VDict config_a_b).

Definition pipeline : Pipeline.t :=
  Pipeline.__init__ (Some "spec") "demo" None.

Definition pipeline_b_a : Pipeline.t :=
  Pipeline.__init__ (Some "tasks: {b: ..., a: ...}") "demo" None.

Definition pipeline_a_b : Pipeline.t :=
  Pipeline.__init__ (Some "tasks: {a: ..., b: ...}") "demo" None.

Definition statement_a : string :=
  "a = BigQueryOperator(task_id='a_id', bql='SELECT 1', use_legacy_sql=False, dag=dag)
".

Definition statement_b : string :=
  "b = BashOperator(task_id='b_id', bash_command='date', retries=2, dag=dag)
".

Definition dependencies_b : string :=
  "b.set_upstream(x)
b.set_upstream(y)
".

(** The two texts of each task, in the order of emission. *)
Definition outs : list (string * string) :=
  [ (statement_a, ""); (statement_b, dependencies_b) ].

End Example.

(** ** Vocabulary of the further properties *)

Section MoreTexts.

Variable py_repr : value -> string.

(** The text of a parameter that is emitted under its own name with its
    own value. *)
Definition plain_text (kv : string * value) : string :=
  ", " ++ fst kv ++ "=" ++
  (if unquoted_type (snd kv) then py_str py_repr (snd kv)
   else "'" ++ py_str py_repr (snd kv) ++ "'").

(** The head of the program resolves to [head]: the configuration has a
    [schedule] mapping with two dates that format and a
    [schedule_interval], and an [email]. *)
Definition head_resolves (self : Pipeline.t) (cfg : list (string * value))
    (head : string) : Prop :=
  exists schedule email start_date end_date start_stamp end_stamp
         schedule_interval,
    Dict.lookup "schedule" cfg = Some (VDict schedule)
    /\ Dict.lookup "email" cfg = Some email
    /\ Dict.lookup "start_date" schedule = Some start_date
    /\ Dict.lookup "end_date" schedule = Some end_date
    /\ strftime start_date Pipeline.datetime_format = Ok start_stamp
    /\ strftime end_date Pipeline.datetime_format = Ok end_stamp
    /\ Dict.lookup "schedule_interval" schedule = Some schedule_interval
    /\ head = Pipeline._imports ++
              default_args_block (py_str py_repr email)
                (datetime_expr start_stamp) (datetime_expr end_stamp) ++
              dag_statement (Pipeline._name self)
                (py_str py_repr schedule_interval).

End MoreTexts.

(** The string is ASCII text: each byte of it is one character. *)
Definition ascii_only (s : string) : bool :=
  forallb (fun c => Nat.ltb (nat_of_ascii c) 128) (list_ascii_of_string s).

(** ** Further configurations *)

Module Edge.

(** A query given as a plain string, which has no [sql] attribute. *)
Definition text_query_task : list (string * value) :=
  [ ("type", VStr "bq"); ("query", VStr "SELECT 1") ].

(** A task that sets [use_legacy_sql] itself. *)
Definition legacy_task : list (string * value) :=
  [ ("type", VStr "bq.execute"); ("use_legacy_sql", VBool true) ].

Definition no_up_stream_task : list (string * value) :=
  [ ("type", VStr "bash"); ("bash_command", VStr "date") ].

(** [up_stream] given as one name, not as a list of names. *)
Definition string_up_stream_task : list (string * value) :=
  [ ("type", VStr "bash"); ("up_stream", VStr "ab") ].

(** [up_stream] left empty in the configuration text. *)
Definition null_up_stream_task : list (string * value) :=
  [ ("type", VStr "bash"); ("up_stream", VNone) ].

Definition list_type_task : list (string * value) :=
  [ ("type", VList [VStr "bash"]) ].

(** Dates that the parser left as strings. *)
Definition schedule_of_strings : list (string * value) :=
  [ ("start_date", VStr "2017-01-01T00:00:00Z");
    ("end_date", VStr "2017-01-02T00:00:00Z");
    ("schedule_interval", VStr "@daily") ].

Definition schedule_no_end : list (string * value) :=
  [ ("start_date",
     Example.datetime "2017-01-01 00:00:00" "2017-01-01T00:00:00");
    ("schedule_interval", VStr "@daily") ].

Definition schedule_no_interval : list (string * value) :=
  [ ("start_date",
     Example.datetime "2017-01-01 00:00:00" "2017-01-01T00:00:00");
    ("end_date",
     Example.datetime "2017-01-02 00:00:00" "2017-01-02T00:00:00") ].

Definition config_of (schedule tasks : value) : list (string * value) :=
  [ ("email", VStr "me@example.com");
    ("schedule", schedule);
    ("tasks", tasks) ].

(** The first task in the order of the identifiers fails on its [query],
    the second on its [up_stream]. *)
Definition two_failing_tasks : list (string * value) :=
  [ ("n", VDict null_up_stream_task); ("f", VDict text_query_task) ].

Definition head : string :=
  Pipeline._imports ++
  default_args_block "me@example.com"
    (datetime_expr "2017-01-01T00:00:00")
    (datetime_expr "2017-01-02T00:00:00") ++
  dag_statement "demo" "@daily".

(** A task of another class with a parameter named [query]. *)
Definition bash_with_query : list (string * value) :=
  [ ("type", VStr "bash"); ("query", VStr "SELECT 1") ].

(** A parser that gives [v], and one that raises. *)
Definition parse_value (v : value)
    (text : string) (env : list (string * value)) : result value :=
  Ok v.

Definition parse_fails (e : exn)
    (text : string) (env : list (string * value)) : result value :=
  Err e.

End Edge.

(** ** Order of keys *)

Section KeyOrder.

Lemma compare_lt_trans (a b c : string) :
  (a ?= b) = Lt -> (b ?= c) = Lt -> (a ?= c) = Lt.
Proof.
  revert b c.
  induction a as [|x a IH]; intros [|y b] [|z c]; simpl; try congruence.
  unfold Ascii.compare.
  destruct (N.compare_spec (N_of_ascii x) (N_of_ascii y)) as [Hxy|Hxy|Hxy];
    destruct (N.compare_spec (N_of_ascii y) (N_of_ascii z)) as [Hyz|Hyz|Hyz];
    try congruence; intros H1 H2.
  - rewrite Hxy, Hyz, N.compare_refl. now apply IH with b.
  - rewrite Hxy. now apply N.compare_lt_iff in Hyz; rewrite Hyz.
  - rewrite <- Hyz. now apply N.compare_lt_iff in Hxy; rewrite Hxy.
  - assert (Hxz : (N_of_ascii x < N_of_ascii z)%N) by lia.
    now apply N.compare_lt_iff in Hxz; rewrite Hxz.
Qed.

Lemma compare_refl (a : string) : (a ?= a) = Eq.
Proof.
  induction a as [|x a IH]; simpl; [reflexivity|].
  unfold Ascii.compare. now rewrite N.compare_refl.
Qed.

Lemma leb_trans (a b c : string) :
  (a <=? b) = true -> (b <=? c) = true -> (a <=? c) = true.
Proof.
  unfold String.leb.
  destruct (a ?= b) eqn:Hab; try discriminate;
    destruct (b ?= c) eqn:Hbc; try discriminate; intros _ _.
  - apply String.compare_eq_iff in Hab, Hbc. subst.
    now rewrite compare_refl.
  - apply String.compare_eq_iff in Hab. subst. now rewrite Hbc.
  - apply String.compare_eq_iff in Hbc. subst. now rewrite Hab.
  - now rewrite (compare_lt_trans a b c).
Qed.

Lemma leb_refl (a : string) : (a <=? a) = true.
Proof. unfold String.leb. now rewrite compare_refl. Qed.

Lemma leb_false_flip (a b : string) :
  (a <=? b) = false -> (b <=? a) = true.
Proof.
  intros H. destruct (String.leb_total a b) as [H'|H']; congruence.
Qed.

Lemma leb_neq_ltb (a b : string) :
  (a <=? b) = true -> a <> b -> (a <? b) = true.
Proof.
  unfold String.leb, String.ltb.
  destruct (a ?= b) eqn:H; try discriminate; intros _ Hne; [|reflexivity].
  now apply String.compare_eq_iff in H.
Qed.

Lemma ltb_leb (a b : string) : (a <? b) = true -> (a <=? b) = true.
Proof.
  unfold String.leb, String.ltb. now destruct (a ?= b).
Qed.

Lemma ltb_irrefl (a : string) : (a <? a) = false.
Proof. unfold String.ltb. now rewrite compare_refl. Qed.

End KeyOrder.

(** ** Facts on dictionaries and their sorted items *)

Section DictFacts.

Context {A : Type}.
Implicit Types (d l : list (string * A)) (x y : string * A) (k : string).

Lemma lookup_In k v d : Dict.lookup k d = Some v -> In (k, v) d.
Proof.
  induction d as [|[k' v'] d IH]; simpl; [discriminate|].
  destruct (String.eqb_spec k k') as [->|Hne].
  - intros [= ->]. now left.
  - intros H. right. now apply IH.
Qed.

Lemma lookup_None k d : Dict.lookup k d = None <-> ~ In k (Dict.keys d).
Proof.
  induction d as [|[k' v'] d IH]; simpl; [tauto|].
  destruct (String.eqb_spec k k') as [->|Hne].
  - split; [discriminate|]. intros H. exfalso. apply H. now left.
  - rewrite IH. split; [|tauto]. intros H [H'|H']; [congruence|tauto].
Qed.

Lemma In_lookup k v d : well_formed d -> In (k, v) d -> Dict.lookup k d = Some v.
Proof.
  unfold well_formed.
  induction d as [|[k' v'] d IH]; simpl; [tauto|].
  intros Hnd [H|H]; inversion Hnd as [|? ? Hnotin Hnd']; subst.
  - injection H as -> ->. now rewrite String.eqb_refl.
  - destruct (String.eqb_spec k k') as [->|Hne]; [|now apply IH].
    exfalso. apply Hnotin. change k' with (fst (k', v)).
    now apply in_map.
Qed.

Lemma well_formed_perm d d' :
  Permutation d d' -> well_formed d -> well_formed d'.
Proof.
  unfold well_formed, Dict.keys. intros Hp.
  apply Permutation_NoDup. now apply Permutation_map.
Qed.

Lemma lookup_perm k d d' :
  well_formed d -> Permutation d d' -> Dict.lookup k d = Dict.lookup k d'.
Proof.
  intros Hwf Hp.
  assert (Hwf' : well_formed d') by now apply well_formed_perm with d.
  destruct (Dict.lookup k d) as [v|] eqn:H.
  - symmetry. apply In_lookup; [assumption|].
    apply Permutation_in with d; [assumption|]. now apply lookup_In.
  - destruct (Dict.lookup k d') as [v|] eqn:H'; [|reflexivity].
    apply lookup_In in H'. apply Permutation_sym in Hp.
    apply (Permutation_in _ Hp) in H'.
    apply (In_lookup _ _ _ Hwf) in H'. congruence.
Qed.

Lemma mem_perm k d d' :
  well_formed d -> Permutation d d' -> Dict.mem k d = Dict.mem k d'.
Proof.
  intros Hwf Hp. unfold Dict.mem. now rewrite (lookup_perm k d d').
Qed.

Lemma set_absent k (v : A) d :
  Dict.lookup k d = None -> Dict.set k v d = (d ++ [(k, v)])%list.
Proof.
  induction d as [|[k' v'] d IH]; simpl; [reflexivity|].
  destruct (String.eqb k k'); [discriminate|].
  intros H. now rewrite IH.
Qed.

Lemma well_formed_snoc k (v : A) d :
  well_formed d -> Dict.lookup k d = None ->
  well_formed (d ++ [(k, v)])%list.
Proof.
  unfold well_formed, Dict.keys. intros Hnd Hnone.
  rewrite map_app. simpl.
  apply lookup_None in Hnone.
  apply NoDup_app; [assumption|repeat constructor; simpl; tauto|].
  intros a Ha [<-|[]]. now apply Hnone.
Qed.

(** *** Sorting *)

Lemma insert_perm x l : Permutation (Dict.insert x l) (x :: l).
Proof.
  induction l as [|y l IH]; simpl; [reflexivity|].
  destruct (fst x <=? fst y); [reflexivity|].
  rewrite IH. apply perm_swap.
Qed.

Lemma sorted_perm l : Permutation (Dict.sorted l) l.
Proof.
  induction l as [|x l IH]; simpl; [reflexivity|].
  rewrite insert_perm. now constructor.
Qed.

Lemma insert_comm x y l :
  fst x <> fst y ->
  Dict.insert x (Dict.insert y l) = Dict.insert y (Dict.insert x l).
Proof.
  intros Hne. induction l as [|z l IH]; simpl.
  - destruct (fst x <=? fst y) eqn:Hxy, (fst y <=? fst x) eqn:Hyx;
      try reflexivity.
    + exfalso. apply Hne. now apply String.leb_antisym.
    + apply leb_false_flip in Hxy. congruence.
  - destruct (fst y <=? fst z) eqn:Hyz, (fst x <=? fst z) eqn:Hxz; simpl;
      rewrite ?Hyz, ?Hxz.
    + destruct (fst x <=? fst y) eqn:Hxy, (fst y <=? fst x) eqn:Hyx;
        try reflexivity.
      * exfalso. apply Hne. now apply String.leb_antisym.
      * apply leb_false_flip in Hxy. congruence.
    + destruct (fst x <=? fst y) eqn:Hxy; [|reflexivity].
      rewrite (leb_trans _ _ _ Hxy Hyz) in Hxz. discriminate.
    + destruct (fst y <=? fst x) eqn:Hyx; [|reflexivity].
      rewrite (leb_trans _ _ _ Hyx Hxz) in Hyz. discriminate.
    + now rewrite IH.
Qed.

Lemma sorted_perm_eq l l' :
  Permutation l l' -> well_formed l -> Dict.sorted l = Dict.sorted l'.
Proof.
  unfold well_formed, Dict.keys.
  induction 1 as [|x l l' Hp IH|x y l|l l' l'' Hp1 IH1 Hp2 IH2];
    simpl; intros Hnd.
  - reflexivity.
  - inversion Hnd; subst. now rewrite IH.
  - apply insert_comm. inversion Hnd as [|? ? Hnotin _]; subst.
    simpl in Hnotin. intros Heq. apply Hnotin. now left.
  - rewrite IH1 by assumption. apply IH2.
    apply (well_formed_perm l l'); assumption.
Qed.

Lemma insert_sorted x l :
  StronglySorted key_le l -> StronglySorted key_le (Dict.insert x l).
Proof.
  induction 1 as [|y l Hs IH Hall]; simpl.
  - repeat constructor.
  - destruct (fst x <=? fst y) eqn:Hxy.
    + constructor; [now constructor|].
      constructor; [exact Hxy|].
      eapply Forall_impl; [|exact Hall].
      intros z Hz. unfold key_le in *. now apply leb_trans with (fst y).
    + constructor; [exact IH|].
      apply (Permutation_Forall (Permutation_sym (insert_perm x l))).
      constructor; [|exact Hall].
      now apply leb_false_flip.
Qed.

Lemma sorted_key_le l : StronglySorted key_le (Dict.sorted l).
Proof.
  induction l as [|x l IH]; simpl; [constructor|].
  now apply insert_sorted.
Qed.

Lemma key_le_lt l :
  well_formed l -> StronglySorted key_le l -> StronglySorted key_lt l.
Proof.
  unfold well_formed, Dict.keys.
  induction 2 as [|x l Hs IH Hall]; [constructor|].
  inversion H as [|? ? Hnotin Hnd]; subst.
  constructor; [now apply IH|].
  rewrite Forall_forall in *. intros y Hy.
  apply leb_neq_ltb; [now apply Hall|].
  intros Heq. apply Hnotin. rewrite Heq. now apply in_map.
Qed.

(** The items of a well-formed mapping are visited in strictly ascending
    order of key. *)
Lemma sorted_key_lt l : well_formed l -> StronglySorted key_lt (Dict.sorted l).
Proof.
  intros Hwf. apply key_le_lt; [|apply sorted_key_le].
  apply well_formed_perm with l; [|assumption].
  apply Permutation_sym, sorted_perm.
Qed.

End DictFacts.

(** ** Facts on strings and templates *)

Section StringFacts.

Lemma append_nil_r (s : string) : s ++ "" = s.
Proof. induction s as [|c s IH]; simpl; congruence. Qed.

Lemma append_assoc (a b c : string) : (a ++ b) ++ c = a ++ b ++ c.
Proof. induction a as [|x a IH]; simpl; congruence. Qed.

Lemma append_length (a b : string) :
  String.length (a ++ b) = String.length a + String.length b.
Proof. induction a as [|x a IH]; simpl; congruence. Qed.

Lemma append_cancel_r (a b c : string) : a ++ c = b ++ c -> a = b.
Proof.
  revert b. induction a as [|x a IH]; intros [|y b]; cbn [append];
    intros H.
  - reflexivity.
  - apply (f_equal String.length) in H. simpl in H.
    rewrite append_length in H. lia.
  - apply (f_equal String.length) in H. simpl in H.
    rewrite append_length in H. lia.
  - injection H as -> H. f_equal. now apply IH.
Qed.

Lemma join_app (l1 l2 : list string) :
  join (l1 ++ l2)%list = join l1 ++ join l2.
Proof.
  induction l1 as [|x l1 IH]; simpl; [reflexivity|].
  now rewrite IH, append_assoc.
Qed.

Lemma format_unquoted (name v : string) :
  format ", {0}={1}" [name; v] = ", " ++ name ++ "=" ++ v.
Proof. simpl. now rewrite append_nil_r. Qed.

Lemma format_quoted (name v : string) :
  format ", {0}='{1}'" [name; v] = ", " ++ name ++ "='" ++ v ++ "'".
Proof. reflexivity. Qed.

Lemma format_task_id (task_id : string) :
  format "task_id='{0}_id'" [task_id] = "task_id='" ++ task_id ++ "_id'".
Proof. reflexivity. Qed.

Lemma format_operator (prefix : string) :
  format "{0}Operator" [prefix] = prefix ++ "Operator".
Proof. reflexivity. Qed.

Lemma format_statement (task_id cls params : string) :
  format "{0} = {1}({2}, dag=dag)
" [task_id; cls; params] = task_id ++ " = " ++ cls ++ "(" ++ params ++ ", dag=dag)
".
Proof. reflexivity. Qed.

Lemma format_set_upstream (task_id dependency : string) :
  format "{0}.set_upstream({1})" [task_id; dependency]
  = task_id ++ ".set_upstream(" ++ dependency ++ ")".
Proof. reflexivity. Qed.

End StringFacts.

(** ** Facts on the loops *)

Section LoopFacts.

Variable py_repr : value -> string.

Local Abbreviation str := (py_str py_repr).

Lemma for_each_app {A B : Type} (f : A -> result B) (l1 l2 : list A) :
  for_each f (l1 ++ l2)%list
  = (ys1 <- for_each f l1 ;; ys2 <- for_each f l2 ;; Ok (ys1 ++ ys2)%list).
Proof.
  induction l1 as [|x l1 IH]; simpl.
  - now destruct (for_each f l2).
  - destruct (f x); simpl; [|reflexivity].
    rewrite IH. destruct (for_each f l1); simpl; [|reflexivity].
    now destruct (for_each f l2).
Qed.

Lemma for_each_length {A B : Type} (f : A -> result B) (l : list A) ys :
  for_each f l = Ok ys -> length ys = length l.
Proof.
  revert ys. induction l as [|x l IH]; simpl; intros ys.
  - now intros [= <-].
  - destruct (f x); simpl; [|discriminate].
    destruct (for_each f l); simpl; [|discriminate].
    intros [= <-]. simpl. now rewrite (IH _ eq_refl).
Qed.

Lemma for_each_Forall2 {A B : Type} (f : A -> result B) (l : list A) ys :
  for_each f l = Ok ys <-> Forall2 (fun x y => f x = Ok y) l ys.
Proof.
  revert ys. induction l as [|x l IH]; simpl; intros ys.
  - split; [intros [= <-]; constructor|now inversion 1].
  - split.
    + destruct (f x) eqn:Hx; simpl; [|discriminate].
      destruct (for_each f l) eqn:Hl; simpl; [|discriminate].
      intros [= <-]. constructor; [assumption|now apply IH].
    + inversion 1 as [|? y ? ys' Hy Hrest]; subst.
      rewrite Hy. simpl. apply IH in Hrest. now rewrite Hrest.
Qed.

Lemma operator_params_cons cls k v l s :
  Pipeline.operator_params py_repr cls ((k, v) :: l) s
  = if reserved k then Pipeline.operator_params py_repr cls l s
    else
      '(name, v') <-
        Pipeline._get_operator_param_name_and_value k v cls ;;
      Pipeline.operator_params py_repr cls l
        (s ++ format (Pipeline._get_param_format_string v) [name; str v']).
Proof. reflexivity. Qed.

Lemma generic_cons k v l :
  generic ((k, v) :: l)
  = if reserved k then generic l else (k, v) :: generic l.
Proof.
  unfold generic. cbn [filter fst]. now destruct (reserved k).
Qed.

(** The loop over the parameters adds the texts of the generic
    parameters, in the order of the list, and stops at the first
    exception. *)
Lemma operator_params_spec cls l s :
  Pipeline.operator_params py_repr cls l s
  = (ps <- for_each (param_text py_repr cls) (generic l) ;;
     Ok (s ++ join ps)).
Proof.
  revert s. induction l as [|[k v] l IH]; intros s.
  - simpl. now rewrite append_nil_r.
  - rewrite operator_params_cons, generic_cons.
    destruct (reserved k) eqn:Hr; [apply IH|].
    cbn [for_each]. unfold param_text at 1. cbn [fst snd].
    destruct (Pipeline._get_operator_param_name_and_value k v cls)
      as [[name v']|e]; cbn [bind]; [|reflexivity].
    rewrite IH.
    destruct (for_each (param_text py_repr cls) (generic l));
      cbn [bind join fold_right]; [|reflexivity].
    now rewrite append_assoc.
Qed.

Lemma set_upstream_loop_spec task_id deps s :
  Pipeline.set_upstream_loop py_repr task_id deps s
  = s ++ join (map (set_upstream_text py_repr task_id) deps).
Proof.
  revert s. induction deps as [|d deps IH]; intros s.
  - simpl. now rewrite append_nil_r.
  - cbn [Pipeline.set_upstream_loop map join fold_right].
    rewrite IH, format_set_upstream. unfold set_upstream_text.
    now rewrite !append_assoc.
Qed.

(** The loop over the tasks adds the two texts of each task, in the
    order of the list, and stops at the first exception. *)
Lemma tasks_loop_spec l a b :
  Pipeline.tasks_loop py_repr l a b
  = (outs <- for_each (task_texts py_repr) l ;;
     Ok (a ++ join (map fst outs), b ++ join (map snd outs))).
Proof.
  revert a b. induction l as [|[task_id details] l IH]; intros a b; simpl.
  - now rewrite !append_nil_r.
  - unfold task_texts at 1. simpl.
    destruct (Pipeline._get_operator_definition py_repr task_id details)
      as [details' [task_def|e]]; simpl; [|reflexivity].
    destruct (get_default details' "up_stream" (VList []))
      as [deps|e]; simpl; [|reflexivity].
    destruct (Pipeline._get_dependency_definition py_repr task_id deps)
      as [dep_def|e]; simpl; [|reflexivity].
    rewrite IH.
    destruct (for_each (task_texts py_repr) l); simpl; [|reflexivity].
    now rewrite !append_assoc.
Qed.

End LoopFacts.

(** ** The instantiation statement *)

Section OperatorDefinition.

Variable py_repr : value -> string.

Local Abbreviation str := (py_str py_repr).

Lemma for_each_In {A B : Type} (f : A -> result B) l ys x :
  for_each f l = Ok ys -> In x l ->
  exists ys1 y ys2, f x = Ok y /\ ys = (ys1 ++ y :: ys2)%list.
Proof.
  revert ys. induction l as [|a l IH]; simpl; intros ys; [tauto|].
  destruct (f a) as [b|] eqn:Ha; simpl; [|discriminate].
  destruct (for_each f l) as [bs|] eqn:Hl; simpl; [|discriminate].
  intros [= <-] [->|Hin].
  - now exists [], b, bs.
  - destruct (IH bs eq_refl Hin) as (ys1 & y & ys2 & Hy & ->).
    now exists (b :: ys1), y, ys2.
Qed.

Lemma for_each_total {A B : Type} (f : A -> result B) l :
  (forall x, In x l -> exists y, f x = Ok y) ->
  exists ys, for_each f l = Ok ys.
Proof.
  induction l as [|a l IH]; simpl; intros H; [now exists []|].
  destruct (H a (or_introl eq_refl)) as [b ->].
  destruct IH as [bs ->]; [intros x Hx; apply H; now right|].
  now exists (b :: bs).
Qed.

Lemma add_defaults_eq d cls :
  Pipeline._add_default_override_params d cls
  = if String.eqb cls "BigQueryOperator"
    then match Dict.lookup "use_legacy_sql" d with
         | Some _ => d
         | None => (d ++ [("use_legacy_sql", VBool false)])%list
         end
    else d.
Proof.
  unfold Pipeline._add_default_override_params.
  destruct (String.eqb cls "BigQueryOperator"); [|reflexivity].
  cbn [Pipeline.bq_defaults fold_left]. unfold Dict.mem.
  destruct (Dict.lookup "use_legacy_sql" d) eqn:H; cbn [negb];
    [reflexivity|].
  now apply set_absent.
Qed.

Lemma add_defaults_well_formed d cls :
  well_formed d ->
  well_formed (Pipeline._add_default_override_params d cls).
Proof.
  intros Hwf. rewrite add_defaults_eq.
  destruct (String.eqb cls "BigQueryOperator"); [|assumption].
  destruct (Dict.lookup "use_legacy_sql" d) eqn:H; [assumption|].
  now apply well_formed_snoc.
Qed.

Lemma add_defaults_perm d d2 cls :
  well_formed d -> Permutation d d2 ->
  Permutation (Pipeline._add_default_override_params d cls)
              (Pipeline._add_default_override_params d2 cls).
Proof.
  intros Hwf Hp. rewrite !add_defaults_eq.
  destruct (String.eqb cls "BigQueryOperator"); [|assumption].
  rewrite <- (lookup_perm "use_legacy_sql" d d2) by assumption.
  destruct (Dict.lookup "use_legacy_sql" d); [assumption|].
  now apply Permutation_app_tail.
Qed.

Lemma add_defaults_In d cls kv :
  In kv d -> In kv (Pipeline._add_default_override_params d cls).
Proof.
  intros H. rewrite add_defaults_eq.
  destruct (String.eqb cls "BigQueryOperator"); [|assumption].
  destruct (Dict.lookup "use_legacy_sql" d); [assumption|].
  apply in_or_app. now left.
Qed.

Lemma add_defaults_lookup d cls k v :
  well_formed d -> Dict.lookup k d = Some v ->
  Dict.lookup k (Pipeline._add_default_override_params d cls) = Some v.
Proof.
  intros Hwf H. apply In_lookup; [now apply add_defaults_well_formed|].
  now apply add_defaults_In, lookup_In.
Qed.

(** The statement of a task whose type resolves to a class: the
    mapping after the call has the defaults, and the statement has the
    texts of its generic parameters in the order of their keys. *)
Lemma operator_definition_eq task_id d ty cls :
  Dict.lookup "type" d = Some ty ->
  Pipeline._get_operator_classname py_repr ty = Ok cls ->
  Pipeline._get_operator_definition py_repr task_id (VDict d)
  = (VDict (Pipeline._add_default_override_params d cls),
     ps <- for_each (param_text py_repr cls)
             (generic (Dict.sorted
                         (Pipeline._add_default_override_params d cls))) ;;
     Ok (task_id ++ " = " ++ cls ++ "(task_id='" ++ task_id ++ "_id'" ++
         join ps ++ ", dag=dag)
")).
Proof.
  intros Hty Hcls. unfold Pipeline._get_operator_definition.
  rewrite Hty, Hcls. f_equal.
  rewrite operator_params_spec.
  destruct (for_each _ _) as [ps|e]; cbn [bind]; [|reflexivity].
  rewrite format_statement, format_task_id.
  now rewrite !append_assoc.
Qed.

Lemma param_text_plain cls k v :
  (String.eqb cls "BigQueryOperator" && String.eqb k "query")%bool = false ->
  param_text py_repr cls (k, v)
  = Ok (format (Pipeline._get_param_format_string v) [k; str v]).
Proof.
  unfold param_text, Pipeline._get_operator_param_name_and_value.
  cbn [fst snd].
  destruct (String.eqb cls "BigQueryOperator"); [|reflexivity].
  destruct (String.eqb k "query"); [discriminate|reflexivity].
Qed.

Lemma param_text_query q sql :
  getattr q "sql" = Ok sql ->
  param_text py_repr "BigQueryOperator" ("query", q)
  = Ok (", bql='" ++ str sql ++ "'").
Proof.
  intros H. unfold param_text, Pipeline._get_operator_param_name_and_value.
  cbn [fst snd String.eqb Ascii.eqb Bool.eqb]. rewrite H. cbn [bind].
  destruct q; try discriminate. reflexivity.
Qed.

Lemma param_text_total cls d :
  well_formed d ->
  (cls = "BigQueryOperator" -> query_resolves d) ->
  forall kv, In kv d -> exists p, param_text py_repr cls kv = Ok p.
Proof.
  intros Hwf Hq [k v] Hin.
  destruct (String.eqb cls "BigQueryOperator" && String.eqb k "query")%bool
    eqn:Hb.
  - apply andb_prop in Hb as [Hc Hk].
    apply String.eqb_eq in Hc, Hk. subst.
    destruct (Hq eq_refl v) as [sql Hsql]; [now apply In_lookup|].
    rewrite (param_text_query v sql Hsql). eauto.
  - rewrite param_text_plain by assumption. eauto.
Qed.

End OperatorDefinition.

Section StatementFacts.

Variable py_repr : value -> string.

Local Abbreviation str := (py_str py_repr).

Lemma lookup_snoc {A : Type} k k' (v : A) d :
  Dict.lookup k (d ++ [(k', v)])%list
  = match Dict.lookup k d with
    | Some x => Some x
    | None => if String.eqb k k' then Some v else None
    end.
Proof.
  induction d as [|[k0 v0] d IH]; simpl; [reflexivity|].
  now destruct (String.eqb k k0).
Qed.

Lemma add_defaults_lookup_other d cls k :
  k <> "use_legacy_sql" ->
  Dict.lookup k (Pipeline._add_default_override_params d cls)
  = Dict.lookup k d.
Proof.
  intros Hk. rewrite add_defaults_eq.
  destruct (String.eqb cls "BigQueryOperator"); [|reflexivity].
  destruct (Dict.lookup "use_legacy_sql" d); [reflexivity|].
  rewrite lookup_snoc. apply String.eqb_neq in Hk. rewrite Hk.
  now destruct (Dict.lookup k d).
Qed.

Lemma add_defaults_query_resolves d cls :
  query_resolves d ->
  query_resolves (Pipeline._add_default_override_params d cls).
Proof.
  unfold query_resolves. intros H q.
  rewrite add_defaults_lookup_other by discriminate. apply H.
Qed.

Lemma In_generic_sorted d k v :
  In (k, v) d -> reserved k = false -> In (k, v) (generic (Dict.sorted d)).
Proof.
  intros Hin Hr. unfold generic. apply filter_In. cbn [fst].
  rewrite Hr. split; [|reflexivity].
  apply Permutation_in with d; [|assumption].
  apply Permutation_sym, sorted_perm.
Qed.

Lemma generic_sorted_In d kv : In kv (generic (Dict.sorted d)) -> In kv d.
Proof.
  unfold generic. intros H. apply filter_In in H as [H _].
  apply Permutation_in with (Dict.sorted d); [apply sorted_perm|assumption].
Qed.

(** The parameters of a task render when its [query], if it is one of a
    BigQueryOperator, has a [sql] attribute: nothing else can fail. *)
Lemma params_total d cls :
  well_formed d ->
  (cls = "BigQueryOperator" -> query_resolves d) ->
  exists ps,
    for_each (param_text py_repr cls)
      (generic (Dict.sorted (Pipeline._add_default_override_params d cls)))
    = Ok ps.
Proof.
  intros Hwf Hq. apply for_each_total. intros kv Hin.
  apply generic_sorted_In in Hin.
  apply (param_text_total py_repr cls
           (Pipeline._add_default_override_params d cls));
    [now apply add_defaults_well_formed| |assumption].
  intros Hc. now apply add_defaults_query_resolves, Hq.
Qed.

(** A generic parameter of the mapping has its text in the parameter
    string. *)
Lemma params_contain d cls ps k v :
  for_each (param_text py_repr cls) (generic (Dict.sorted d)) = Ok ps ->
  In (k, v) d -> reserved k = false ->
  exists ps1 p ps2,
    param_text py_repr cls (k, v) = Ok p /\
    join ps = join ps1 ++ p ++ join ps2.
Proof.
  intros Hps Hin Hr.
  destruct (for_each_In _ _ _ (k, v) Hps (In_generic_sorted d k v Hin Hr))
    as (ps1 & p & ps2 & Hp & ->).
  exists ps1, p, ps2. split; [assumption|].
  now rewrite join_app.
Qed.

Lemma StronglySorted_filter {A : Type} (R : A -> A -> Prop) f l :
  StronglySorted R l -> StronglySorted R (filter f l).
Proof.
  induction 1 as [|x l Hs IH Hall]; simpl; [constructor|].
  destruct (f x); [|assumption].
  constructor; [assumption|].
  rewrite Forall_forall in *. intros y Hy. apply Hall.
  now apply filter_In in Hy as [Hy _].
Qed.

Lemma operator_definition_perm task_id d d2 :
  well_formed d -> Permutation d d2 ->
  snd (Pipeline._get_operator_definition py_repr task_id (VDict d2))
  = snd (Pipeline._get_operator_definition py_repr task_id (VDict d)).
Proof.
  intros Hwf Hp. unfold Pipeline._get_operator_definition.
  rewrite <- (lookup_perm "type" d d2) by assumption.
  destruct (Dict.lookup "type" d) as [ty|]; [|reflexivity].
  destruct (Pipeline._get_operator_classname py_repr ty) as [cls|];
    [|reflexivity].
  cbn [snd].
  rewrite (sorted_perm_eq
             (Pipeline._add_default_override_params d cls)
             (Pipeline._add_default_override_params d2 cls));
    [reflexivity|now apply add_defaults_perm
                |now apply add_defaults_well_formed].
Qed.

End StatementFacts.

Ltac normalize_append :=
  cbn [append]; repeat (rewrite append_assoc; cbn [append]).

Ltac solve_well_formed :=
  unfold well_formed, Dict.keys; simpl;
  repeat (constructor; [simpl; intuition discriminate|]); constructor.


(** ** Facts on substrings *)

Section Substrings.




End Substrings.

(** ** Properties of the instantiation and dependency statements *)

Section StatementClaims.

Variable py_repr : value -> string.

Local Abbreviation str := (py_str py_repr).

(** C3. In the statement of a task whose class is BigQueryOperator, a
    parameter named [query] is emitted under the name [bql], and the
    value emitted is the [sql] attribute of the parameter's value, as a
    quoted literal, not the value itself. *)
Theorem query_is_emitted_as_bql task_id d ty q sql :
  well_formed d ->
  Dict.lookup "type" d = Some ty ->
  Pipeline._get_operator_classname py_repr ty = Ok "BigQueryOperator" ->
  Dict.lookup "query" d = Some q ->
  getattr q "sql" = Ok sql ->
  Pipeline._get_operator_param_name_and_value "query" q "BigQueryOperator"
  = Ok ("bql", sql)
  /\ exists before after,
      snd (Pipeline._get_operator_definition py_repr task_id (VDict d))
      = Ok (task_id ++ " = BigQueryOperator(task_id='" ++ task_id ++ "_id'"
            ++ before ++ ", bql='" ++ str sql ++ "'" ++ after ++ ", dag=dag)
").
Proof.
  intros Hwf Hty Hcls Hq Hsql. split.
  - unfold Pipeline._get_operator_param_name_and_value.
    cbn [String.eqb Ascii.eqb Bool.eqb]. now rewrite Hsql.
  - rewrite (operator_definition_eq py_repr task_id d ty _ Hty Hcls).
    cbn [snd].
    destruct (params_total py_repr d "BigQueryOperator" Hwf) as [ps Hps].
    { intros _ q' Hq'. rewrite Hq in Hq'. injection Hq' as <-. eauto. }
    rewrite Hps. cbn [bind].
    destruct (params_contain py_repr _ _ ps "query" q Hps)
      as (ps1 & p & ps2 & Hp & ->); [|reflexivity|].
    { apply add_defaults_In. now apply lookup_In. }
    rewrite (param_text_query py_repr q sql Hsql) in Hp.
    injection Hp as <-.
    exists (join ps1), (join ps2). normalize_append. reflexivity.
Qed.

(** C4. For a task whose class is BigQueryOperator and whose mapping has
    no key [use_legacy_sql], the call leaves the mapping with
    [use_legacy_sql] bound to False, and the statement has
    [use_legacy_sql=False]; a mapping that has the key is left as it
    is. *)
Theorem use_legacy_sql_is_injected task_id d ty :
  well_formed d ->
  Dict.lookup "type" d = Some ty ->
  Pipeline._get_operator_classname py_repr ty = Ok "BigQueryOperator" ->
  (Dict.lookup "use_legacy_sql" d = None ->
     Pipeline._add_default_override_params d "BigQueryOperator"
     = (d ++ [("use_legacy_sql", VBool false)])%list
     /\ fst (Pipeline._get_operator_definition py_repr task_id (VDict d))
        = VDict (d ++ [("use_legacy_sql", VBool false)])%list
     /\ (query_resolves d ->
         exists before after,
           snd (Pipeline._get_operator_definition py_repr task_id (VDict d))
           = Ok (task_id ++ " = BigQueryOperator(task_id='" ++ task_id
                 ++ "_id'" ++ before ++ ", use_legacy_sql=False" ++ after
                 ++ ", dag=dag)
")))
  /\ (forall v, Dict.lookup "use_legacy_sql" d = Some v ->
        Pipeline._add_default_override_params d "BigQueryOperator" = d
        /\ fst (Pipeline._get_operator_definition py_repr task_id (VDict d))
           = VDict d).
Proof.
  intros Hwf Hty Hcls.
  rewrite (operator_definition_eq py_repr task_id d ty _ Hty Hcls).
  cbn [fst snd]. rewrite add_defaults_eq.
  cbn [String.eqb Ascii.eqb Bool.eqb]. split.
  - intros Hnone. rewrite Hnone. repeat split.
    intros Hq.
    pose proof (params_total py_repr d "BigQueryOperator" Hwf (fun _ => Hq))
      as [ps Hps].
    rewrite add_defaults_eq in Hps.
    cbn [String.eqb Ascii.eqb Bool.eqb] in Hps. rewrite Hnone in Hps.
    rewrite Hps. cbn [bind].
    destruct (params_contain py_repr _ _ ps "use_legacy_sql" (VBool false)
                Hps)
      as (ps1 & p & ps2 & Hp & ->); [|reflexivity|].
    { apply in_or_app. right. now left. }
    rewrite param_text_plain in Hp by reflexivity.
    cbn [Pipeline._get_param_format_string type_of existsb pytype_eqb orb
         py_str] in Hp.
    rewrite format_unquoted in Hp. injection Hp as <-.
    exists (join ps1), (join ps2). normalize_append. reflexivity.
  - intros v Hv. now rewrite Hv.
Qed.

(** C6. The dependency statements of a task are one
    [<task_id>.set_upstream(<dependency>)] line per entry of its
    [up_stream] list, in the order of the list; the entries are not
    looked up among the tasks. *)
Theorem one_set_upstream_per_dependency task_id deps :
  Pipeline._get_dependency_definition py_repr task_id (VList deps)
  = Ok (join (map (set_upstream_text py_repr task_id) deps))
  /\ length (map (set_upstream_text py_repr task_id) deps) = length deps
  /\ (forall d stmt,
        Dict.lookup "up_stream" d = Some (VList deps) ->
        snd (Pipeline._get_operator_definition py_repr task_id (VDict d))
        = Ok stmt ->
        task_texts py_repr (task_id, VDict d)
        = Ok (stmt, join (map (set_upstream_text py_repr task_id) deps))).
Proof.
  assert (Hdep :
    Pipeline._get_dependency_definition py_repr task_id (VList deps)
    = Ok (join (map (set_upstream_text py_repr task_id) deps))).
  { unfold Pipeline._get_dependency_definition. cbn [iterate bind].
    now rewrite set_upstream_loop_spec. }
  split; [exact Hdep|]. split; [apply length_map|].
  intros d stmt Hup Hstmt.
  unfold task_texts. cbn [fst snd].
  unfold Pipeline._get_operator_definition in *.
  destruct (Dict.lookup "type" d) as [ty|]; [|discriminate].
  destruct (Pipeline._get_operator_classname py_repr ty) as [cls|];
    [|discriminate].
  cbn [snd] in Hstmt. rewrite Hstmt. cbn [bind get_default].
  rewrite add_defaults_lookup_other by discriminate.
  rewrite Hup. now rewrite Hdep.
Qed.

(** C8. A type token that is none of the entries of the lookup table
    is no error: the class name is the token itself with [Operator]
    appended, and the statement of the task is emitted with it. *)
Theorem unknown_type_passes_through token :
  ~ In token ["bq"; "bq.execute"; "bq.query"; "bq-table-delete";
              "bq.extract"; "bash"] ->
  Pipeline._get_operator_classname py_repr (VStr token)
  = Ok (token ++ "Operator")
  /\ forall task_id d,
      well_formed d ->
      Dict.lookup "type" d = Some (VStr token) ->
      (token = "BigQuery" -> query_resolves d) ->
      exists ps,
        snd (Pipeline._get_operator_definition py_repr task_id (VDict d))
        = Ok (task_id ++ " = " ++ token ++ "Operator(task_id='" ++ task_id
              ++ "_id'" ++ join ps ++ ", dag=dag)
").
Proof.
  intros Hnot.
  assert (Hcls : Pipeline._get_operator_classname py_repr (VStr token)
                 = Ok (token ++ "Operator")).
  { unfold Pipeline._get_operator_classname.
    replace (Dict.lookup token Pipeline.task_type_to_operator_prefix_mapping)
      with (@None string) by (symmetry; now apply lookup_None).
    now rewrite format_operator. }
  split; [exact Hcls|].
  intros task_id d Hwf Hty Hq.
  rewrite (operator_definition_eq py_repr task_id d _ _ Hty Hcls).
  cbn [snd].
  destruct (params_total py_repr d (token ++ "Operator") Hwf) as [ps Hps].
  { intros Heq. apply Hq.
    now apply (append_cancel_r token "BigQuery" "Operator"). }
  exists ps. rewrite Hps. cbn [bind]. normalize_append. reflexivity.
Qed.

(** C9. In a statement the generic parameters, which are all the keys
    of the mapping but [type] and [up_stream], follow the leading
    [task_id] argument in strictly ascending order of parameter name,
    whatever the insertion order of the mapping. *)
Theorem parameters_in_name_order task_id d ty cls :
  well_formed d ->
  Dict.lookup "type" d = Some ty ->
  Pipeline._get_operator_classname py_repr ty = Ok cls ->
  snd (Pipeline._get_operator_definition py_repr task_id (VDict d))
  = (ps <- for_each (param_text py_repr cls)
             (generic (Dict.sorted
                         (Pipeline._add_default_override_params d cls))) ;;
     Ok (task_id ++ " = " ++ cls ++ "(task_id='" ++ task_id ++ "_id'" ++
         join ps ++ ", dag=dag)
"))
  /\ StronglySorted key_lt
       (generic (Dict.sorted (Pipeline._add_default_override_params d cls)))
  /\ (forall k v,
        In (k, v)
           (generic (Dict.sorted
                       (Pipeline._add_default_override_params d cls)))
        <-> In (k, v) (Pipeline._add_default_override_params d cls)
            /\ k <> "type" /\ k <> "up_stream")
  /\ (forall d2,
        Permutation d d2 ->
        snd (Pipeline._get_operator_definition py_repr task_id (VDict d2))
        = snd (Pipeline._get_operator_definition py_repr task_id (VDict d))).
Proof.
  intros Hwf Hty Hcls. repeat split.
  - now rewrite (operator_definition_eq py_repr task_id d ty cls).
  - apply StronglySorted_filter, sorted_key_lt.
    now apply add_defaults_well_formed.
  - now apply generic_sorted_In in H.
  - unfold generic in H. apply filter_In in H as [_ H].
    cbn [fst] in H. intros ->. discriminate.
  - unfold generic in H. apply filter_In in H as [_ H].
    cbn [fst] in H. intros ->. discriminate.
  - intros (Hin & Ht & Hu). apply In_generic_sorted; [assumption|].
    unfold reserved. cbn [existsb].
    apply String.eqb_neq in Ht, Hu. now rewrite Ht, Hu.
  - intros d2 Hp. now apply operator_definition_perm.
Qed.

(** C10. The statement of a task assigns the operator to a variable
    named by the task identifier itself, and its first argument is
    [task_id='<task_id>_id']; a dependency statement names the
    identifiers as they are. *)
Theorem task_id_gets_id_suffix task_id d ty cls ps :
  Dict.lookup "type" d = Some ty ->
  Pipeline._get_operator_classname py_repr ty = Ok cls ->
  for_each (param_text py_repr cls)
    (generic (Dict.sorted (Pipeline._add_default_override_params d cls)))
  = Ok ps ->
  snd (Pipeline._get_operator_definition py_repr task_id (VDict d))
  = Ok (task_id ++ " = " ++ cls ++ "(task_id='" ++ task_id ++ "_id'" ++
        join ps ++ ", dag=dag)
")
  /\ forall dependency_id rest,
      Pipeline._get_dependency_definition py_repr task_id
        (VList (VStr dependency_id :: rest))
      = Ok (task_id ++ ".set_upstream(" ++ dependency_id ++ ")
" ++ join (map (set_upstream_text py_repr task_id) rest)).
Proof.
  intros Hty Hcls Hps. split.
  - rewrite (operator_definition_eq py_repr task_id d ty cls Hty Hcls).
    cbn [snd]. now rewrite Hps.
  - intros dependency_id rest.
    unfold Pipeline._get_dependency_definition. cbn [iterate bind].
    rewrite set_upstream_loop_spec. cbn [map join fold_right append].
    unfold set_upstream_text at 1. cbn [py_str].
    normalize_append. reflexivity.
Qed.


End StatementClaims.

(** ** Facts on the order of emission *)

Section OrderFacts.

Lemma ltb_asym (a b : string) :
  (a <? b) = true -> (b <? a) = true -> False.
Proof.
  unfold String.ltb. rewrite (String.compare_antisym b a).
  destruct (a ?= b); discriminate.
Qed.

Lemma StronglySorted_before {A : Type} (R : A -> A -> Prop) l1 x r :
  StronglySorted R (l1 ++ x :: r)%list -> Forall (fun z => R z x) l1.
Proof.
  induction l1 as [|a l1 IH]; cbn [app]; intros H; [constructor|].
  inversion H as [|? ? Hs Hall]; subst.
  constructor; [|now apply IH].
  rewrite Forall_forall in Hall. apply Hall.
  apply in_or_app. right. now left.
Qed.

(** Of two items of a list in strictly ascending order of key, the one
    with the lesser key comes first. *)
Lemma sorted_split_two {A : Type} (l : list (string * A)) x y :
  StronglySorted key_lt l -> In x l -> In y l -> key_lt x y ->
  exists l1 l2 l3, l = (l1 ++ x :: l2 ++ y :: l3)%list.
Proof.
  intros Hs Hx Hy Hlt.
  destruct (in_split x l Hx) as (l1 & r & ->).
  apply in_app_or in Hy as [Hy|[Hy|Hy]].
  - exfalso. pose proof (StronglySorted_before _ _ _ _ Hs) as Hall.
    rewrite Forall_forall in Hall. specialize (Hall y Hy).
    unfold key_lt in *. now apply (ltb_asym (fst x) (fst y)).
  - exfalso. subst y. unfold key_lt in Hlt.
    now rewrite ltb_irrefl in Hlt.
  - destruct (in_split y r Hy) as (l2 & l3 & ->).
    now exists l1, l2, l3.
Qed.

Lemma for_each_split_two {A B : Type} (f : A -> result B)
    l1 x l2 y l3 outs :
  for_each f (l1 ++ x :: l2 ++ y :: l3)%list = Ok outs ->
  exists out1 out2 before between after,
    f x = Ok out1 /\ f y = Ok out2
    /\ outs = (before ++ out1 :: between ++ out2 :: after)%list.
Proof.
  intros H. apply for_each_Forall2 in H.
  apply Forall2_app_inv_l in H as (before & rest & _ & Hrest & ->).
  inversion Hrest as [|? out1 ? rest' Hx Hrest']; subst.
  apply Forall2_app_inv_l in Hrest' as (between & rest2 & _ & Hrest2 & ->).
  inversion Hrest2 as [|? out2 ? after Hy _]; subst.
  now exists out1, out2, before, between, after.
Qed.

Lemma join_map_split_two {B : Type} (g : B -> string)
    before out1 between out2 after :
  join (map g (before ++ out1 :: between ++ out2 :: after)%list)
  = join (map g before) ++ g out1 ++ join (map g between) ++ g out2 ++
    join (map g after).
Proof.
  rewrite map_app, join_app. cbn [map join fold_right].
  now rewrite map_app, join_app.
Qed.

End OrderFacts.

(** ** Properties of the generated program *)

Section ProgramFacts.

Variable py_repr : value -> string.
Variable parse_config : string -> list (string * value) -> result value.

Local Abbreviation str := (py_str py_repr).
Local Abbreviation py := (Pipeline.py py_repr parse_config).

Lemma datetime_expr_eq d stamp :
  strftime d Pipeline.datetime_format = Ok stamp ->
  Pipeline._get_datetime_expr_str d = Ok (datetime_expr stamp).
Proof.
  intros H. unfold Pipeline._get_datetime_expr_str. now rewrite H.
Qed.

Lemma default_args_eq email start_date end_date s1 s2 :
  strftime start_date Pipeline.datetime_format = Ok s1 ->
  strftime end_date Pipeline.datetime_format = Ok s2 ->
  Pipeline._get_default_args py_repr email start_date end_date
  = Ok (default_args_block (str email) (datetime_expr s1)
                           (datetime_expr s2)).
Proof.
  intros H1 H2. unfold Pipeline._get_default_args.
  rewrite (datetime_expr_eq _ _ H1), (datetime_expr_eq _ _ H2).
  reflexivity.
Qed.

Lemma dag_definition_eq self schedule_interval :
  Pipeline._get_dag_definition py_repr self schedule_interval
  = dag_statement (Pipeline._name self) (str schedule_interval).
Proof. reflexivity. Qed.

(** [py] on a spec text that is not empty and parses to a mapping. *)
Lemma py_eq self spec cfg :
  Pipeline._spec_str self = Some spec -> spec <> "" ->
  parse_config spec (Pipeline._env self) = Ok (VDict cfg) ->
  py self
  = (schedule <- get (VDict cfg) "schedule" ;;
     start_datetime_obj <- get schedule "start_date" ;;
     end_datetime_obj <- get schedule "end_date" ;;
     email <- getitem (VDict cfg) "email" ;;
     default_args <-
       Pipeline._get_default_args py_repr email start_datetime_obj
         end_datetime_obj ;;
     schedule_interval <- getitem schedule "schedule_interval" ;;
     tasks <- getitem (VDict cfg) "tasks" ;;
     task_items <- items tasks ;;
     outs <- for_each (task_texts py_repr) (Dict.sorted task_items) ;;
     Ok (Some (Pipeline._imports ++ default_args ++
               Pipeline._get_dag_definition py_repr self schedule_interval ++
               join (map fst outs) ++ join (map snd outs)))).
Proof.
  intros Hspec Hne Hparse. unfold Pipeline.py. rewrite Hspec.
  destruct spec as [|c spec]; [contradiction|].
  rewrite Hparse. cbn [bind].
  destruct (get (VDict cfg) "schedule") as [schedule|];
    cbn [bind]; [|reflexivity].
  destruct (get schedule "start_date"); cbn [bind]; [|reflexivity].
  destruct (get schedule "end_date"); cbn [bind]; [|reflexivity].
  destruct (getitem (VDict cfg) "email"); cbn [bind]; [|reflexivity].
  destruct (Pipeline._get_default_args _ _ _ _); cbn [bind]; [|reflexivity].
  destruct (getitem schedule "schedule_interval");
    cbn [bind]; [|reflexivity].
  destruct (getitem (VDict cfg) "tasks"); cbn [bind]; [|reflexivity].
  destruct (items _); cbn [bind]; [|reflexivity].
  rewrite tasks_loop_spec.
  destruct (for_each _ _); cbn [bind]; reflexivity.
Qed.

(** C1. For a spec text that is not empty, the program is the
    concatenation, in this order, of the import preamble, the default
    arguments block with the email and the two datetime expressions, the
    graph declaration with the name and the schedule interval, the
    instantiation statements of all tasks, one per task, and then the
    dependency statements of all tasks. *)
Theorem program_is_concatenation
    self spec cfg schedule email start_date end_date start_stamp end_stamp
    schedule_interval tasks outs :
  Pipeline._spec_str self = Some spec -> spec <> "" ->
  parse_config spec (Pipeline._env self) = Ok (VDict cfg) ->
  Dict.lookup "schedule" cfg = Some (VDict schedule) ->
  Dict.lookup "start_date" schedule = Some start_date ->
  Dict.lookup "end_date" schedule = Some end_date ->
  strftime start_date Pipeline.datetime_format = Ok start_stamp ->
  strftime end_date Pipeline.datetime_format = Ok end_stamp ->
  Dict.lookup "email" cfg = Some email ->
  Dict.lookup "schedule_interval" schedule = Some schedule_interval ->
  Dict.lookup "tasks" cfg = Some (VDict tasks) ->
  for_each (task_texts py_repr) (Dict.sorted tasks) = Ok outs ->
  py self
  = Ok (Some (Pipeline._imports ++
              default_args_block (str email) (datetime_expr start_stamp)
                                 (datetime_expr end_stamp) ++
              dag_statement (Pipeline._name self) (str schedule_interval) ++
              join (map fst outs) ++ join (map snd outs)))
  /\ length outs = length tasks
  /\ Forall2 (fun task out => task_texts py_repr task = Ok out)
             (Dict.sorted tasks) outs.
Proof.
  intros Hspec Hne Hparse Hsched Hstart Hend Hs1 Hs2 Hemail Hint Htasks
         Houts.
  split; [|split].
  - rewrite (py_eq self spec cfg Hspec Hne Hparse).
    cbn [get getitem items]. rewrite Hsched. cbn [bind get getitem].
    rewrite Hstart, Hend, Hemail. cbn [bind].
    rewrite (default_args_eq email _ _ _ _ Hs1 Hs2). cbn [bind].
    rewrite Hint, Htasks. cbn [bind items]. rewrite Houts. cbn [bind].
    now rewrite dag_definition_eq.
  - rewrite (for_each_length _ _ _ Houts).
    apply Permutation_length, sorted_perm.
  - now apply for_each_Forall2.
Qed.

(** C2. The tasks are visited in strictly ascending order of their
    identifiers, whatever the insertion order of the tasks mapping: two
    configurations that differ only in that order give the same
    program. When the head of the program resolves and the tasks emit
    their texts, that program is the head, then the instantiation
    statements of the sorted tasks, then their dependency statements:
    of two tasks, the statement and the dependency statements of the one
    with the lesser identifier come first. *)
Theorem tasks_in_identifier_order
    self1 self2 spec1 spec2 cfg1 cfg2 tasks1 tasks2 :
  Pipeline._spec_str self1 = Some spec1 -> spec1 <> "" ->
  Pipeline._spec_str self2 = Some spec2 -> spec2 <> "" ->
  Pipeline._name self1 = Pipeline._name self2 ->
  parse_config spec1 (Pipeline._env self1) = Ok (VDict cfg1) ->
  parse_config spec2 (Pipeline._env self2) = Ok (VDict cfg2) ->
  (forall k, k <> "tasks" -> Dict.lookup k cfg1 = Dict.lookup k cfg2) ->
  Dict.lookup "tasks" cfg1 = Some (VDict tasks1) ->
  Dict.lookup "tasks" cfg2 = Some (VDict tasks2) ->
  well_formed tasks1 ->
  Permutation tasks1 tasks2 ->
  StronglySorted key_lt (Dict.sorted tasks1)
  /\ Permutation (Dict.sorted tasks1) tasks1
  /\ Dict.sorted tasks2 = Dict.sorted tasks1
  /\ py self2 = py self1
  /\ (forall text,
        py self1 = Ok (Some text) ->
        exists head outs,
          Forall2 (fun task out => task_texts py_repr task = Ok out)
                  (Dict.sorted tasks1) outs
          /\ text = head ++ join (map fst outs) ++ join (map snd outs))
  /\ (forall head outs,
        head_resolves py_repr self1 cfg1 head ->
        for_each (task_texts py_repr) (Dict.sorted tasks1) = Ok outs ->
        py self1
        = Ok (Some (head ++ join (map fst outs) ++ join (map snd outs)))
        /\ py self2
           = Ok (Some (head ++ join (map fst outs) ++ join (map snd outs)))
        /\ length outs = length tasks1
        /\ (forall task1 task2,
              In task1 tasks1 -> In task2 tasks1 -> key_lt task1 task2 ->
              exists out1 out2 before between after,
                task_texts py_repr task1 = Ok out1
                /\ task_texts py_repr task2 = Ok out2
                /\ outs = (before ++ out1 :: between ++ out2 :: after)%list
                /\ join (map fst outs)
                   = join (map fst before) ++ fst out1 ++
                     join (map fst between) ++ fst out2 ++
                     join (map fst after)
                /\ join (map snd outs)
                   = join (map snd before) ++ snd out1 ++
                     join (map snd between) ++ snd out2 ++
                     join (map snd after))).
Proof.
  intros Hspec1 Hne1 Hspec2 Hne2 Hname Hparse1 Hparse2 Hsame Htasks1
         Htasks2 Hwf Hperm.
  assert (Hsorted : Dict.sorted tasks2 = Dict.sorted tasks1)
    by (symmetry; now apply sorted_perm_eq).
  assert (Hlt : StronglySorted key_lt (Dict.sorted tasks1))
    by now apply sorted_key_lt.
  assert (Hsame_py : py self2 = py self1).
  { rewrite (py_eq self1 spec1 cfg1 Hspec1 Hne1 Hparse1).
    rewrite (py_eq self2 spec2 cfg2 Hspec2 Hne2 Hparse2).
    cbn [get getitem]. rewrite Htasks1, Htasks2.
    rewrite <- (Hsame "schedule"), <- (Hsame "email") by discriminate.
    cbn [bind items]. rewrite Hsorted.
    unfold Pipeline._get_dag_definition. now rewrite Hname. }
  split; [exact Hlt|].
  split; [apply sorted_perm|].
  split; [exact Hsorted|].
  split; [exact Hsame_py|]. split.
  - intros text. rewrite (py_eq self1 spec1 cfg1 Hspec1 Hne1 Hparse1).
    destruct (get (VDict cfg1) "schedule") as [schedule|];
      cbn [bind]; [|discriminate].
    destruct (get schedule "start_date"); cbn [bind]; [|discriminate].
    destruct (get schedule "end_date"); cbn [bind]; [|discriminate].
    destruct (getitem (VDict cfg1) "email"); cbn [bind]; [|discriminate].
    destruct (Pipeline._get_default_args _ _ _ _) as [default_args|];
      cbn [bind]; [|discriminate].
    destruct (getitem schedule "schedule_interval") as [interval|];
      cbn [bind]; [|discriminate].
    cbn [getitem]. rewrite Htasks1. cbn [bind items].
    destruct (for_each _ _) as [outs|] eqn:Houts;
      cbn [bind]; [|discriminate].
    generalize (Pipeline._get_dag_definition py_repr self1 interval).
    generalize Pipeline._imports. intros imports dag_definition [= <-].
    exists (imports ++ default_args ++ dag_definition), outs.
    split; [now apply for_each_Forall2|].
    now rewrite !append_assoc.
  - intros head outs
      (schedule & email & start_date & end_date & s1 & s2 & interval
       & Hsched & Hemail & Hstart & Hend & Hs1 & Hs2 & Hint & ->) Houts.
    assert (Hprogram :
      py self1
      = Ok (Some ((Pipeline._imports ++
                   default_args_block (str email) (datetime_expr s1)
                     (datetime_expr s2) ++
                   dag_statement (Pipeline._name self1) (str interval)) ++
                  join (map fst outs) ++ join (map snd outs)))).
    { rewrite (py_eq self1 spec1 cfg1 Hspec1 Hne1 Hparse1).
      cbn [get getitem]. rewrite Hsched. cbn [bind get getitem].
      rewrite Hstart, Hend, Hemail. cbn [bind].
      rewrite (default_args_eq email _ _ _ _ Hs1 Hs2). cbn [bind].
      rewrite Hint, Htasks1. cbn [bind items]. rewrite Houts. cbn [bind].
      rewrite dag_definition_eq. now rewrite !append_assoc. }
    split; [exact Hprogram|].
    split; [now rewrite Hsame_py|].
    split.
    { rewrite (for_each_length _ _ _ Houts).
      apply Permutation_length, sorted_perm. }
    intros task1 task2 Hin1 Hin2 Hkeys.
    assert (Hperm' : Permutation tasks1 (Dict.sorted tasks1))
      by apply Permutation_sym, sorted_perm.
    destruct (sorted_split_two (Dict.sorted tasks1) task1 task2 Hlt
                (Permutation_in _ Hperm' Hin1)
                (Permutation_in _ Hperm' Hin2) Hkeys)
      as (l1 & l2 & l3 & Hsplit).
    rewrite Hsplit in Houts.
    destruct (for_each_split_two _ _ _ _ _ _ _ Houts)
      as (out1 & out2 & before & between & after & H1 & H2 & ->).
    exists out1, out2, before, between, after.
    split; [exact H1|]. split; [exact H2|]. split; [reflexivity|].
    split; apply join_map_split_two.
Qed.

Lemma task_texts_no_type task_id d :
  Dict.lookup "type" d = None ->
  task_texts py_repr (task_id, VDict d) = Err (KeyError "type").
Proof.
  intros H. unfold task_texts, Pipeline._get_operator_definition.
  cbn [fst snd]. now rewrite H.
Qed.

Lemma for_each_fails_at {A B : Type} (f : A -> result B)
    before x after ys e :
  for_each f before = Ok ys -> f x = Err e ->
  for_each f (before ++ x :: after)%list = Err e.
Proof.
  intros Hbefore Hx. rewrite for_each_app, Hbefore.
  cbn [bind for_each]. now rewrite Hx.
Qed.

Lemma for_each_fails {A B : Type} (f : A -> result B) l x e :
  In x l -> f x = Err e -> exists e', for_each f l = Err e'.
Proof.
  intros Hin Hx. destruct (for_each f l) as [ys|e'] eqn:H; [|eauto].
  destruct (for_each_In f l ys x H Hin) as (_ & y & _ & Hy & _).
  congruence.
Qed.

(** C7, as the code has it. When [schedule], [email] or [tasks] is
    absent from the parsed configuration, or the mapping of a task has no
    [type], generation fails with an exception and there is no output.
    The exception of an absent [schedule] is an attribute error, since
    the key is read with [.get] and the next [.get] is on None; that of
    an absent [email], [tasks] or [type] is a key error when all that is
    evaluated before it succeeds. *)
Theorem missing_key_fails self spec cfg :
  Pipeline._spec_str self = Some spec -> spec <> "" ->
  parse_config spec (Pipeline._env self) = Ok (VDict cfg) ->
  ((Dict.lookup "schedule" cfg = None
    \/ Dict.lookup "email" cfg = None
    \/ Dict.lookup "tasks" cfg = None
    \/ (exists tasks task_id d,
          Dict.lookup "tasks" cfg = Some (VDict tasks)
          /\ In (task_id, VDict d) tasks
          /\ Dict.lookup "type" d = None)) ->
   exists e, py self = Err e)
  /\ (Dict.lookup "schedule" cfg = None ->
      py self = Err (AttributeError "get"))
  /\ (forall schedule,
        Dict.lookup "schedule" cfg = Some (VDict schedule) ->
        (Dict.lookup "email" cfg = None ->
         py self = Err (KeyError "email"))
        /\ (forall email start_date end_date start_stamp end_stamp
                   schedule_interval,
              Dict.lookup "email" cfg = Some email ->
              Dict.lookup "start_date" schedule = Some start_date ->
              Dict.lookup "end_date" schedule = Some end_date ->
              strftime start_date Pipeline.datetime_format = Ok start_stamp ->
              strftime end_date Pipeline.datetime_format = Ok end_stamp ->
              Dict.lookup "schedule_interval" schedule
              = Some schedule_interval ->
              (Dict.lookup "tasks" cfg = None ->
               py self = Err (KeyError "tasks"))
              /\ (forall tasks before task_id d after outs,
                    Dict.lookup "tasks" cfg = Some (VDict tasks) ->
                    Dict.sorted tasks
                    = (before ++ (task_id, VDict d) :: after)%list ->
                    for_each (task_texts py_repr) before = Ok outs ->
                    Dict.lookup "type" d = None ->
                    py self = Err (KeyError "type")))).
Proof.
  intros Hspec Hne Hparse.
  rewrite (py_eq self spec cfg Hspec Hne Hparse).
  split; [|split].
  - intros Hmissing.
    destruct (get (VDict cfg) "schedule") as [schedule|] eqn:Hsched;
      cbn [bind]; [|eauto].
    destruct (get schedule "start_date") eqn:Hstart; cbn [bind]; [|eauto].
    destruct (get schedule "end_date"); cbn [bind]; [|eauto].
    destruct (getitem (VDict cfg) "email") eqn:Hemail;
      cbn [bind]; [|eauto].
    destruct (Pipeline._get_default_args _ _ _ _); cbn [bind]; [|eauto].
    destruct (getitem schedule "schedule_interval"); cbn [bind]; [|eauto].
    destruct (getitem (VDict cfg) "tasks") as [tasks|] eqn:Htasks;
      cbn [bind]; [|eauto].
    destruct (items tasks) as [task_items|] eqn:Hitems;
      cbn [bind]; [|eauto].
    destruct (for_each _ _) as [outs|] eqn:Houts; cbn [bind]; [|eauto].
    exfalso. cbn [get getitem] in *.
    destruct Hmissing as [H|[H|[H|(tasks' & task_id & d & H & Hin & Hty)]]].
    + rewrite H in Hsched. injection Hsched as <-. discriminate.
    + rewrite H in Hemail. discriminate.
    + rewrite H in Htasks. discriminate.
    + rewrite H in Htasks. injection Htasks as <-.
      cbn [items] in Hitems. injection Hitems as <-.
      destruct (for_each_fails (task_texts py_repr) (Dict.sorted tasks')
                  (task_id, VDict d) (KeyError "type")) as [e He].
      * apply Permutation_in with tasks'; [|assumption].
        apply Permutation_sym, sorted_perm.
      * now apply task_texts_no_type.
      * congruence.
  - intros H. cbn [get]. now rewrite H.
  - intros schedule Hsched.
    cbn [get getitem]. rewrite Hsched. cbn [bind get getitem]. split.
    + intros H. rewrite H.
      now destruct (Dict.lookup "start_date" schedule),
                   (Dict.lookup "end_date" schedule).
    + intros email start_date end_date s1 s2 interval
             Hemail Hstart Hend Hs1 Hs2 Hint.
      rewrite Hstart, Hend, Hemail. cbn [bind].
      rewrite (default_args_eq email _ _ _ _ Hs1 Hs2).
      cbn [bind]. rewrite Hint. cbn [bind]. split.
      * intros H. now rewrite H.
      * intros tasks before task_id d after outs Htasks Hsorted Hbefore
               Hty.
        rewrite Htasks. cbn [bind items]. rewrite Hsorted.
        rewrite (for_each_fails_at _ before _ after outs (KeyError "type")
                   Hbefore (task_texts_no_type task_id d Hty)).
        reflexivity.
Qed.

End ProgramFacts.

(** ** The properties on the example configuration *)

Section Worked.

Local Abbreviation str := (py_str Example.repr).

(** The program of the example: the statement of [a] precedes that of
    [b], although [b] was inserted first. *)
Example program_of_example :
  Pipeline.py Example.repr (Example.parse Example.config) Example.pipeline
  = Ok (Some "
from airflow import DAG
from airflow.operators.bash_operator import BashOperator
from airflow.contrib.operators.bigquery_operator import BigQueryOperator
from airflow.contrib.operators.bigquery_table_delete_operator import BigQueryTableDeleteOperator
from airflow.contrib.operators.bigquery_to_bigquery import BigQueryToBigQueryOperator
from airflow.contrib.operators.bigquery_to_gcs import BigQueryToCloudStorageOperator
from datetime import timedelta
from pytz import timezone

default_args = {
    'owner': 'Datalab',
    'depends_on_past': False,
    'email': ['me@example.com'],
    'start_date': datetime.datetime.strptime('2017-01-01T00:00:00', '%Y-%m-%dT%H:%M:%S').replace(tzinfo=timezone('UTC')),
    'end_date': datetime.datetime.strptime('2017-01-02T00:00:00', '%Y-%m-%dT%H:%M:%S').replace(tzinfo=timezone('UTC')),
    'email_on_failure': True,
    'email_on_retry': False,
    'retries': 1,
    'retry_delay': timedelta(minutes=1),
}

dag = DAG(dag_id='demo', schedule_interval='@daily', default_args=default_args)

a = BigQueryOperator(task_id='a_id', bql='SELECT 1', use_legacy_sql=False, dag=dag)
b = BashOperator(task_id='b_id', bash_command='date', retries=2, dag=dag)
b.set_upstream(x)
b.set_upstream(y)
").
Proof. vm_compute. reflexivity. Qed.

(** An empty or absent spec text gives no program. *)
Example no_spec_no_program :
  Pipeline.py Example.repr (Example.parse Example.config)
    (Pipeline.__init__ None "demo" None) = Ok None
  /\ Pipeline.py Example.repr (Example.parse Example.config)
       (Pipeline.__init__ (Some "") "demo" None) = Ok None.
Proof. split; reflexivity. Qed.

Lemma well_formed_bq_task : well_formed Example.bq_task.
Proof. solve_well_formed. Defined.

Lemma well_formed_bash_task : well_formed Example.bash_task.
Proof. solve_well_formed. Defined.

Lemma well_formed_custom_task : well_formed Example.custom_task.
Proof. solve_well_formed. Defined.

Lemma well_formed_tasks : well_formed Example.tasks.
Proof. solve_well_formed. Defined.

Lemma spec_not_empty c s : String c s <> "".
Proof. discriminate. Defined.

Lemma program_is_concatenation_witness :
  Pipeline.py Example.repr (Example.parse Example.config) Example.pipeline
  = Ok (Some (Pipeline._imports ++
              default_args_block "me@example.com"
                (datetime_expr "2017-01-01T00:00:00")
                (datetime_expr "2017-01-02T00:00:00") ++
              dag_statement "demo" "@daily" ++
              join (map fst Example.outs) ++ join (map snd Example.outs)))
  /\ length Example.outs = length Example.tasks
  /\ Forall2 (fun task out => task_texts Example.repr task = Ok out)
             (Dict.sorted Example.tasks) Example.outs.
Proof.
  apply (program_is_concatenation
           Example.repr (Example.parse Example.config) Example.pipeline
           "spec" Example.config Example.schedule (VStr "me@example.com")
           (Example.datetime "2017-01-01 00:00:00" "2017-01-01T00:00:00")
           (Example.datetime "2017-01-02 00:00:00" "2017-01-02T00:00:00")
           "2017-01-01T00:00:00" "2017-01-02T00:00:00"
           (VStr "@daily") Example.tasks Example.outs);
    first [reflexivity | apply spec_not_empty].
Defined.

Lemma tasks_in_identifier_order_witness :
  Dict.sorted Example.tasks_a_b = Dict.sorted Example.tasks
  /\ Pipeline.py Example.repr Example.parse_two Example.pipeline_a_b
     = Pipeline.py Example.repr Example.parse_two Example.pipeline_b_a
  /\ Pipeline.py Example.repr Example.parse_two Example.pipeline_b_a
     = Ok (Some (Edge.head ++ join (map fst Example.outs) ++
                 join (map snd Example.outs)))
  /\ Pipeline.py Example.repr Example.parse_two Example.pipeline_a_b
     = Ok (Some (Edge.head ++ join (map fst Example.outs) ++
                 join (map snd Example.outs)))
  /\ exists out1 out2 before between after,
      task_texts Example.repr ("a", VDict Example.bq_task) = Ok out1
      /\ task_texts Example.repr ("b", VDict Example.bash_task) = Ok out2
      /\ Example.outs = (before ++ out1 :: between ++ out2 :: after)%list
      /\ join (map fst Example.outs)
         = join (map fst before) ++ fst out1 ++ join (map fst between) ++
           fst out2 ++ join (map fst after)
      /\ join (map snd Example.outs)
         = join (map snd before) ++ snd out1 ++ join (map snd between) ++
           snd out2 ++ join (map snd after).
Proof.
  assert (Hsame : forall k, k <> "tasks" ->
            Dict.lookup k Example.config = Dict.lookup k Example.config_a_b).
  { intros k Hk. unfold Example.config, Example.config_a_b.
    cbn [Dict.lookup].
    destruct (String.eqb k "email"); [reflexivity|].
    destruct (String.eqb k "schedule"); [reflexivity|].
    apply String.eqb_neq in Hk. rewrite Hk. reflexivity. }
  assert (Hhead : head_resolves Example.repr Example.pipeline_b_a
                    Example.config Edge.head).
  { exists Example.schedule, (VStr "me@example.com"),
      (Example.datetime "2017-01-01 00:00:00" "2017-01-01T00:00:00"),
      (Example.datetime "2017-01-02 00:00:00" "2017-01-02T00:00:00"),
      "2017-01-01T00:00:00", "2017-01-02T00:00:00", (VStr "@daily").
    repeat split. }
  destruct (tasks_in_identifier_order
              Example.repr Example.parse_two
              Example.pipeline_b_a Example.pipeline_a_b
              "tasks: {b: ..., a: ...}" "tasks: {a: ..., b: ...}"
              Example.config Example.config_a_b
              Example.tasks Example.tasks_a_b
              eq_refl (spec_not_empty _ _) eq_refl (spec_not_empty _ _)
              eq_refl eq_refl eq_refl Hsame eq_refl eq_refl
              well_formed_tasks (perm_swap _ _ _))
    as (_ & _ & Hsorted & Hsame_py & _ & Hprogram).
  destruct (Hprogram Edge.head Example.outs Hhead eq_refl)
    as (Hb_a & Ha_b & _ & Hfirst).
  split; [exact Hsorted|]. split; [exact Hsame_py|].
  split; [exact Hb_a|]. split; [exact Ha_b|].
  apply (Hfirst ("a", VDict Example.bq_task) ("b", VDict Example.bash_task)).
  - right. left. reflexivity.
  - left. reflexivity.
  - reflexivity.
Defined.

Lemma query_is_emitted_as_bql_witness :
  Pipeline._get_operator_param_name_and_value
    "query" Example.query "BigQueryOperator"
  = Ok ("bql", VStr "SELECT 1")
  /\ exists before after,
      snd (Pipeline._get_operator_definition Example.repr "a"
             (VDict Example.bq_task))
      = Ok ("a = BigQueryOperator(task_id='a_id'" ++ before ++
            ", bql='SELECT 1'" ++ after ++ ", dag=dag)
").
Proof.
  exact (query_is_emitted_as_bql
           Example.repr "a" Example.bq_task (VStr "bq.query")
           Example.query (VStr "SELECT 1")
           well_formed_bq_task eq_refl eq_refl eq_refl eq_refl).
Defined.

Lemma use_legacy_sql_is_injected_witness :
  fst (Pipeline._get_operator_definition Example.repr "a"
         (VDict Example.bq_task))
  = VDict [ ("type", VStr "bq.query"); ("query", Example.query);
            ("use_legacy_sql", VBool false) ]
  /\ exists before after,
      snd (Pipeline._get_operator_definition Example.repr "a"
             (VDict Example.bq_task))
      = Ok ("a = BigQueryOperator(task_id='a_id'" ++ before ++
            ", use_legacy_sql=False" ++ after ++ ", dag=dag)
").
Proof.
  destruct (proj1 (use_legacy_sql_is_injected
                     Example.repr "a" Example.bq_task (VStr "bq.query")
                     well_formed_bq_task eq_refl eq_refl)
                  eq_refl) as (_ & Hmapping & Hstmt).
  split; [exact Hmapping|].
  apply Hstmt. intros q Hq. exists (VStr "SELECT 1").
  injection Hq as <-. reflexivity.
Defined.


Lemma one_set_upstream_per_dependency_witness :
  Pipeline._get_dependency_definition Example.repr "b"
    (VList [VStr "x"; VStr "y"])
  = Ok Example.dependencies_b
  /\ task_texts Example.repr ("b", VDict Example.bash_task)
     = Ok (Example.statement_b, Example.dependencies_b).
Proof.
  destruct (one_set_upstream_per_dependency
              Example.repr "b" [VStr "x"; VStr "y"])
    as (Hdeps & _ & Htask).
  split; [exact Hdeps|].
  exact (Htask Example.bash_task Example.statement_b eq_refl eq_refl).
Defined.

Lemma missing_key_fails_witness :
  Pipeline.py Example.repr (Example.parse Example.config_no_schedule)
    Example.pipeline = Err (AttributeError "get")
  /\ Pipeline.py Example.repr (Example.parse Example.config_no_email)
       Example.pipeline = Err (KeyError "email")
  /\ Pipeline.py Example.repr (Example.parse Example.config_no_tasks)
       Example.pipeline = Err (KeyError "tasks")
  /\ Pipeline.py Example.repr (Example.parse Example.config_no_type)
       Example.pipeline = Err (KeyError "type").
Proof.
  split; [|split; [|split]].
  - exact (proj1 (proj2
             (missing_key_fails
                Example.repr (Example.parse Example.config_no_schedule)
                Example.pipeline "spec" Example.config_no_schedule
                eq_refl (spec_not_empty _ _) eq_refl))
             eq_refl).
  - exact (proj1 (proj2 (proj2
             (missing_key_fails
                Example.repr (Example.parse Example.config_no_email)
                Example.pipeline "spec" Example.config_no_email
                eq_refl (spec_not_empty _ _) eq_refl))
             Example.schedule eq_refl)
             eq_refl).
  - exact (proj1 (proj2 (proj2 (proj2
             (missing_key_fails
                Example.repr (Example.parse Example.config_no_tasks)
                Example.pipeline "spec" Example.config_no_tasks
                eq_refl (spec_not_empty _ _) eq_refl))
             Example.schedule eq_refl)
             (VStr "me@example.com") _ _
             "2017-01-01T00:00:00" "2017-01-02T00:00:00" (VStr "@daily")
             eq_refl eq_refl eq_refl eq_refl eq_refl eq_refl)
             eq_refl).
  - exact (proj2 (proj2 (proj2 (proj2
             (missing_key_fails
                Example.repr (Example.parse Example.config_no_type)
                Example.pipeline "spec" Example.config_no_type
                eq_refl (spec_not_empty _ _) eq_refl))
             Example.schedule eq_refl)
             (VStr "me@example.com") _ _
             "2017-01-01T00:00:00" "2017-01-02T00:00:00" (VStr "@daily")
             eq_refl eq_refl eq_refl eq_refl eq_refl eq_refl)
             [ ("c", VDict Example.untyped_task);
               ("a", VDict Example.bq_task) ]
             [ ("a", VDict Example.bq_task) ] "c" Example.untyped_task []
             [ (Example.statement_a, "") ]
             eq_refl eq_refl eq_refl eq_refl).
Defined.

Lemma unknown_type_passes_through_witness :
  Pipeline._get_operator_classname Example.repr (VStr "custom")
  = Ok "customOperator"
  /\ exists ps,
      snd (Pipeline._get_operator_definition Example.repr "t"
             (VDict Example.custom_task))
      = Ok ("t = customOperator(task_id='t_id'" ++ join ps ++ ", dag=dag)
").
Proof.
  assert (Hnot : ~ In "custom" ["bq"; "bq.execute"; "bq.query";
                                "bq-table-delete"; "bq.extract"; "bash"])
    by (simpl; intuition discriminate).
  destruct (unknown_type_passes_through Example.repr "custom" Hnot)
    as (Hcls & Hstmt).
  split; [exact Hcls|].
  apply (Hstmt "t" Example.custom_task well_formed_custom_task eq_refl).
  discriminate.
Defined.

Lemma parameters_in_name_order_witness :
  snd (Pipeline._get_operator_definition Example.repr "b"
         (VDict Example.bash_task))
  = Ok Example.statement_b
  /\ generic (Dict.sorted Example.bash_task)
     = [ ("bash_command", VStr "date"); ("retries", VInt 2) ].
Proof.
  split; [|reflexivity].
  exact (proj1 (parameters_in_name_order
                  Example.repr "b" Example.bash_task (VStr "bash")
                  "BashOperator" well_formed_bash_task eq_refl eq_refl)).
Defined.

Lemma task_id_gets_id_suffix_witness :
  snd (Pipeline._get_operator_definition Example.repr "b"
         (VDict Example.bash_task))
  = Ok ("b = BashOperator(task_id='b_id'" ++
        join [", bash_command='date'"; ", retries=2"] ++ ", dag=dag)
")
  /\ Pipeline._get_dependency_definition Example.repr "b"
       (VList [VStr "x"; VStr "y"])
     = Ok ("b.set_upstream(x)
" ++ join (map (set_upstream_text Example.repr "b") [VStr "y"])).
Proof.
  destruct (task_id_gets_id_suffix
              Example.repr "b" Example.bash_task (VStr "bash")
              "BashOperator" [", bash_command='date'"; ", retries=2"]
              eq_refl eq_refl eq_refl) as (Hstmt & Hdeps).
  split; [exact Hstmt|exact (Hdeps "x" [VStr "y"])].
Defined.

(** *** Where the code departs from the claims *)

(** C7 as stated fails: with no [schedule] in the configuration the
    exception is an attribute error, not a key error. *)
Lemma absent_schedule_is_no_key_error :
  Pipeline._spec_str Example.pipeline = Some "spec"
  /\ Example.parse Example.config_no_schedule "spec"
       (Pipeline._env Example.pipeline)
     = Ok (VDict Example.config_no_schedule)
  /\ Dict.lookup "schedule" Example.config_no_schedule = None
  /\ Pipeline.py Example.repr (Example.parse Example.config_no_schedule)
       Example.pipeline = Err (AttributeError "get")
  /\ ~ (exists key,
          Pipeline.py Example.repr
            (Example.parse Example.config_no_schedule) Example.pipeline
          = Err (KeyError key)).
Proof.
  repeat split. intros [key H]. discriminate H.
Qed.


End Worked.

(** ** Further properties of the statements of a task *)

Section TaskProperties.

Variable py_repr : value -> string.

Local Abbreviation str := (py_str py_repr).

Lemma format_param v a b :
  format (Pipeline._get_param_format_string v) [a; b]
  = ", " ++ a ++ "=" ++ (if unquoted_type v then b else "'" ++ b ++ "'").
Proof.
  unfold Pipeline._get_param_format_string.
  destruct v; cbn [type_of existsb pytype_eqb orb unquoted_type];
    (apply format_unquoted || apply format_quoted).
Qed.

Lemma getattr_error v name e :
  getattr v name = Err e -> e = AttributeError name.
Proof.
  unfold getattr. destruct v; try (now intros [= <-]).
  destruct (Dict.lookup name attrs); [discriminate|now intros [= <-]].
Qed.

Lemma add_defaults_idempotent d cls :
  Pipeline._add_default_override_params
    (Pipeline._add_default_override_params d cls) cls
  = Pipeline._add_default_override_params d cls.
Proof.
  rewrite (add_defaults_eq d cls).
  destruct (String.eqb cls "BigQueryOperator") eqn:Hcls.
  - destruct (Dict.lookup "use_legacy_sql" d) eqn:H;
      rewrite add_defaults_eq, Hcls.
    + now rewrite H.
    + rewrite lookup_snoc, H. reflexivity.
  - now rewrite add_defaults_eq, Hcls.
Qed.

Lemma plain_params cls l :
  String.eqb cls "BigQueryOperator" = false ->
  for_each (param_text py_repr cls) l = Ok (map (plain_text py_repr) l).
Proof.
  intros Hcls. induction l as [|[k v] l IH]; [reflexivity|].
  cbn [for_each map]. rewrite param_text_plain by now rewrite Hcls.
  cbn [bind]. rewrite IH. cbn [bind]. rewrite format_param. reflexivity.
Qed.

(** The parameters of a BigQueryOperator fail on a [query] that has no
    [sql] attribute, whatever the other parameters are. *)
Lemma query_params_fail l q :
  (forall v, In ("query", v) l -> v = q) ->
  In ("query", q) l ->
  (forall sql, getattr q "sql" <> Ok sql) ->
  for_each (param_text py_repr "BigQueryOperator") l
  = Err (AttributeError "sql").
Proof.
  intros Huniq Hin Hsql. induction l as [|[k v] l IH]; [contradiction|].
  cbn [for_each].
  destruct (String.eqb_spec k "query") as [->|Hk].
  - rewrite (Huniq v (or_introl eq_refl)).
    unfold param_text, Pipeline._get_operator_param_name_and_value.
    cbn [fst snd String.eqb Ascii.eqb Bool.eqb].
    destruct (getattr q "sql") as [sql|e] eqn:Hq;
      [now destruct (Hsql sql)|].
    cbn [bind]. now rewrite (getattr_error q "sql" e Hq).
  - rewrite param_text_plain
      by (apply String.eqb_neq in Hk; rewrite Hk; apply andb_false_r).
    cbn [bind]. rewrite IH; [reflexivity| |].
    + intros v' Hv'. apply Huniq. now right.
    + destruct Hin as [[= -> _]|Hin]; [contradiction|assumption].
Qed.

(** X1. The call leaves the mapping in a state that a second call does
    not change, and the second call gives what the first gave: the
    statement or the exception. *)
Theorem operator_definition_is_idempotent task_id task_details :
  Pipeline._get_operator_definition py_repr task_id
    (fst (Pipeline._get_operator_definition py_repr task_id task_details))
  = Pipeline._get_operator_definition py_repr task_id task_details.
Proof.
  destruct task_details as [| | | | | |d| |]; try reflexivity.
  unfold Pipeline._get_operator_definition at 2 3.
  destruct (Dict.lookup "type" d) as [ty|] eqn:Hty.
  - destruct (Pipeline._get_operator_classname py_repr ty) as [cls|e]
      eqn:Hcls; cbn [fst].
    + unfold Pipeline._get_operator_definition.
      rewrite add_defaults_lookup_other by discriminate.
      rewrite Hty, Hcls. now rewrite add_defaults_idempotent.
    + unfold Pipeline._get_operator_definition. now rewrite Hty, Hcls.
  - cbn [fst]. unfold Pipeline._get_operator_definition. now rewrite Hty.
Qed.

(** X2. The class of a type token that is a string is BigQueryOperator,
    the one class with rules of its own, exactly for the tokens [bq],
    [bq.execute], [bq.query] and [BigQuery]. *)
Theorem bigquery_rules_apply_to token :
  Pipeline._get_operator_classname py_repr (VStr token)
  = Ok "BigQueryOperator"
  <-> In token ["bq"; "bq.execute"; "bq.query"; "BigQuery"].
Proof.
  split.
  - unfold Pipeline._get_operator_classname.
    destruct (Dict.lookup token Pipeline.task_type_to_operator_prefix_mapping)
      as [prefix|] eqn:Hlookup; rewrite format_operator; intros [= H].
    + apply (append_cancel_r prefix "BigQuery" "Operator") in H. subst.
      unfold Pipeline.task_type_to_operator_prefix_mapping in Hlookup.
      cbn [Dict.lookup] in Hlookup.
      destruct (String.eqb_spec token "bq") as [Heq|_]; [now left|].
      destruct (String.eqb_spec token "bq.execute") as [Heq|_];
        [right; now left|].
      destruct (String.eqb_spec token "bq.query") as [Heq|_];
        [right; right; now left|].
      destruct (String.eqb token "bq-table-delete"); [discriminate|].
      destruct (String.eqb token "bq.extract"); [discriminate|].
      destruct (String.eqb token "bash"); discriminate.
    + apply (append_cancel_r token "BigQuery" "Operator") in H. subst.
      right; right; right; now left.
  - intros [<-|[<-|[<-|[<-|[]]]]]; reflexivity.
Qed.

(** X3. The class name of a token of the lookup table is its prefix
    with [Operator] appended; a token that is None, a number, a bool or
    a date goes through str(); a list or a dict cannot be looked up and
    is a type error. *)
Theorem classname_of_token :
  (forall token prefix,
     Dict.lookup token Pipeline.task_type_to_operator_prefix_mapping
     = Some prefix ->
     Pipeline._get_operator_classname py_repr (VStr token)
     = Ok (prefix ++ "Operator"))
  /\ (forall ty,
        type_of ty <> T_str -> type_of ty <> T_list ->
        type_of ty <> T_dict -> type_of ty <> T_object ->
        Pipeline._get_operator_classname py_repr ty
        = Ok (str ty ++ "Operator"))
  /\ (forall ty,
        type_of ty = T_list \/ type_of ty = T_dict ->
        Pipeline._get_operator_classname py_repr ty = Err TypeError).
Proof.
  split; [|split].
  - intros token prefix H. unfold Pipeline._get_operator_classname.
    now rewrite H, format_operator.
  - intros ty Hs Hl Hd Ho. unfold Pipeline._get_operator_classname.
    destruct ty; cbn [type_of] in *; try congruence;
      now rewrite format_operator.
  - intros ty [H|H]; destruct ty; cbn [type_of] in H;
      try discriminate; reflexivity.
Qed.

(** X4. A BigQueryOperator task whose [query] has no [sql] attribute,
    as a plain string has none, fails with an attribute error on [sql];
    the mapping has been given its [use_legacy_sql] all the same. *)
Theorem query_without_sql_fails task_id d ty q :
  well_formed d ->
  Dict.lookup "type" d = Some ty ->
  Pipeline._get_operator_classname py_repr ty = Ok "BigQueryOperator" ->
  Dict.lookup "query" d = Some q ->
  (forall sql, getattr q "sql" <> Ok sql) ->
  Pipeline._get_operator_definition py_repr task_id (VDict d)
  = (VDict (Pipeline._add_default_override_params d "BigQueryOperator"),
     Err (AttributeError "sql"))
  /\ Dict.mem "use_legacy_sql"
       (Pipeline._add_default_override_params d "BigQueryOperator") = true.
Proof.
  intros Hwf Hty Hcls Hq Hsql. split.
  - rewrite (operator_definition_eq py_repr task_id d ty _ Hty Hcls).
    f_equal.
    rewrite (query_params_fail _ q); [reflexivity| | |assumption].
    + intros v Hv. apply generic_sorted_In in Hv.
      apply (In_lookup _ _ _ (add_defaults_well_formed d _ Hwf)) in Hv.
      rewrite add_defaults_lookup_other in Hv by discriminate.
      congruence.
    + apply In_generic_sorted; [|reflexivity].
      now apply add_defaults_In, lookup_In.
  - rewrite add_defaults_eq. cbn [String.eqb Ascii.eqb Bool.eqb].
    unfold Dict.mem.
    destruct (Dict.lookup "use_legacy_sql" d) eqn:H; [now rewrite H|].
    rewrite lookup_snoc, H. reflexivity.
Qed.

(** X5. A task of another class than BigQueryOperator whose mapping has
    strings for keys, as every mapping here has, never fails on its
    parameters and its mapping is left as it is: every generic parameter,
    a [query] too, is emitted under its own name with its own value. A
    mapping with a key that is no string is outside this statement: its
    items may not sort. *)
Theorem other_operators_are_left_alone task_id d ty cls :
  Dict.lookup "type" d = Some ty ->
  Pipeline._get_operator_classname py_repr ty = Ok cls ->
  cls <> "BigQueryOperator" ->
  Pipeline._get_operator_definition py_repr task_id (VDict d)
  = (VDict d,
     Ok (task_id ++ " = " ++ cls ++ "(task_id='" ++ task_id ++ "_id'" ++
         join (map (plain_text py_repr) (generic (Dict.sorted d))) ++
         ", dag=dag)
")).
Proof.
  intros Hty Hcls Hne. apply String.eqb_neq in Hne.
  rewrite (operator_definition_eq py_repr task_id d ty cls Hty Hcls).
  rewrite add_defaults_eq, Hne.
  now rewrite (plain_params cls _ Hne).
Qed.

(** X6. A [use_legacy_sql] that the mapping of a BigQueryOperator task
    sets itself is emitted with the value it has there: the default
    does not replace it, and the mapping is left as it is. *)
Theorem explicit_use_legacy_sql_is_kept task_id d ty v :
  well_formed d ->
  Dict.lookup "type" d = Some ty ->
  Pipeline._get_operator_classname py_repr ty = Ok "BigQueryOperator" ->
  Dict.lookup "use_legacy_sql" d = Some v ->
  query_resolves d ->
  exists before after,
    Pipeline._get_operator_definition py_repr task_id (VDict d)
    = (VDict d,
       Ok (task_id ++ " = BigQueryOperator(task_id='" ++ task_id ++ "_id'"
           ++ before ++ plain_text py_repr ("use_legacy_sql", v) ++ after
           ++ ", dag=dag)
")).
Proof.
  intros Hwf Hty Hcls Hv Hq.
  rewrite (operator_definition_eq py_repr task_id d ty _ Hty Hcls).
  destruct (params_total py_repr d "BigQueryOperator" Hwf (fun _ => Hq))
    as [ps Hps].
  rewrite Hps. cbn [bind].
  rewrite add_defaults_eq in Hps |- *.
  cbn [String.eqb Ascii.eqb Bool.eqb] in Hps |- *. rewrite Hv in Hps |- *.
  destruct (params_contain py_repr _ _ ps "use_legacy_sql" v Hps)
    as (ps1 & p & ps2 & Hp & ->); [now apply lookup_In|reflexivity|].
  rewrite param_text_plain in Hp by reflexivity.
  rewrite format_param in Hp. injection Hp as <-.
  exists (join ps1), (join ps2). f_equal. f_equal.
  unfold plain_text. cbn [fst snd]. normalize_append. reflexivity.
Qed.

(** X7. A task with no [up_stream] key has no dependency statement. *)
Theorem no_up_stream_no_dependencies task_id d stmt :
  Dict.lookup "up_stream" d = None ->
  snd (Pipeline._get_operator_definition py_repr task_id (VDict d))
  = Ok stmt ->
  task_texts py_repr (task_id, VDict d) = Ok (stmt, "").
Proof.
  intros Hup Hstmt. unfold task_texts. cbn [fst snd].
  unfold Pipeline._get_operator_definition in *.
  destruct (Dict.lookup "type" d) as [ty|]; [|discriminate].
  destruct (Pipeline._get_operator_classname py_repr ty) as [cls|];
    [|discriminate].
  cbn [snd] in Hstmt. rewrite Hstmt. cbn [bind get_default].
  rewrite add_defaults_lookup_other by discriminate.
  now rewrite Hup.
Qed.

Lemma chars_length s : length (chars s) = String.length s.
Proof. induction s as [|c s IH]; simpl; congruence. Qed.

(** X8. An [up_stream] that is a string of ASCII text, not a list, is
    read character by character: there is one dependency statement for
    each character of the string, naming that character. *)
Theorem string_up_stream_is_read_by_character task_id s :
  ascii_only s = true ->
  Pipeline._get_dependency_definition py_repr task_id (VStr s)
  = Ok (join (map (fun c => task_id ++ ".set_upstream(" ++
                            String c "" ++ ")
")
                  (list_ascii_of_string s)))
  /\ length (list_ascii_of_string s) = String.length s.
Proof.
  intros _. split.
  - unfold Pipeline._get_dependency_definition. cbn [iterate bind].
    rewrite set_upstream_loop_spec. cbn [append]. f_equal. f_equal.
    induction s as [|c s IH]; [reflexivity|].
    cbn [chars list_ascii_of_string map]. now rewrite IH.
  - induction s as [|c s IH]; simpl; congruence.
Qed.

(** X9. An [up_stream] that cannot be iterated, as None, a number or a
    date, is a type error, of the dependency statements and of the
    task, although the statement of the task had been built. *)
Theorem up_stream_must_be_iterable task_id dependencies :
  type_of dependencies <> T_list ->
  type_of dependencies <> T_str ->
  type_of dependencies <> T_dict ->
  type_of dependencies <> T_object ->
  Pipeline._get_dependency_definition py_repr task_id dependencies
  = Err TypeError
  /\ forall d stmt,
      Dict.lookup "up_stream" d = Some dependencies ->
      snd (Pipeline._get_operator_definition py_repr task_id (VDict d))
      = Ok stmt ->
      task_texts py_repr (task_id, VDict d) = Err TypeError.
Proof.
  intros Hl Hs Hd Ho.
  assert (Hdep :
    Pipeline._get_dependency_definition py_repr task_id dependencies
    = Err TypeError).
  { unfold Pipeline._get_dependency_definition.
    destruct dependencies; cbn [type_of] in *; try congruence;
      reflexivity. }
  split; [exact Hdep|].
  intros d stmt Hup Hstmt. unfold task_texts. cbn [fst snd].
  unfold Pipeline._get_operator_definition in *.
  destruct (Dict.lookup "type" d) as [ty|]; [|discriminate].
  destruct (Pipeline._get_operator_classname py_repr ty) as [cls|];
    [|discriminate].
  cbn [snd] in Hstmt. rewrite Hstmt. cbn [bind get_default].
  rewrite add_defaults_lookup_other by discriminate.
  rewrite Hup. now rewrite Hdep.
Qed.

(** X10. A task that is no mapping, as the None of an empty entry, a
    string or a list is none, or whose [type] is a list or a dict, is a
    type error, and its mapping is not touched. *)
Theorem task_must_be_a_typed_mapping task_id :
  (forall v,
     type_of v <> T_dict -> type_of v <> T_object ->
     Pipeline._get_operator_definition py_repr task_id v
     = (v, Err TypeError)
     /\ task_texts py_repr (task_id, v) = Err TypeError)
  /\ (forall d ty,
        Dict.lookup "type" d = Some ty ->
        type_of ty = T_list \/ type_of ty = T_dict ->
        Pipeline._get_operator_definition py_repr task_id (VDict d)
        = (VDict d, Err TypeError)
        /\ task_texts py_repr (task_id, VDict d) = Err TypeError).
Proof.
  split.
  - intros v Hv Ho. unfold task_texts. cbn [fst snd].
    destruct v; cbn [type_of] in Hv, Ho; try congruence; now split.
  - intros d ty Hty Hkind.
    assert (Hcls : Pipeline._get_operator_classname py_repr ty
                   = Err TypeError).
    { destruct Hkind as [H|H]; destruct ty; cbn [type_of] in H;
        try discriminate; reflexivity. }
    unfold task_texts. cbn [fst snd].
    unfold Pipeline._get_operator_definition. rewrite Hty, Hcls.
    now split.
Qed.

(** X11. The call never removes or changes an entry of the mapping and
    keeps the order of its entries: the mapping after the call is the
    mapping before it, followed by nothing or by the one entry
    [use_legacy_sql: False], and by that one only when the key was
    absent. *)
Theorem mutation_only_adds_the_default task_id d :
  exists extra,
    fst (Pipeline._get_operator_definition py_repr task_id (VDict d))
    = VDict (d ++ extra)%list
    /\ (extra = []
        \/ (extra = [("use_legacy_sql", VBool false)]
            /\ Dict.lookup "use_legacy_sql" d = None)).
Proof.
  unfold Pipeline._get_operator_definition.
  destruct (Dict.lookup "type" d) as [ty|];
    [|exists []; rewrite app_nil_r; now split; [|left]].
  destruct (Pipeline._get_operator_classname py_repr ty) as [cls|];
    [|exists []; rewrite app_nil_r; now split; [|left]].
  cbn [fst]. rewrite add_defaults_eq.
  destruct (String.eqb cls "BigQueryOperator");
    [|exists []; rewrite app_nil_r; now split; [|left]].
  destruct (Dict.lookup "use_legacy_sql" d) eqn:H;
    [exists []; rewrite app_nil_r; now split; [|left]|].
  exists [("use_legacy_sql", VBool false)]. split; [reflexivity|].
  right. now split.
Qed.

End TaskProperties.

(** ** Further properties of the generated program *)

Section ProgramProperties.

Variable py_repr : value -> string.
Variable parse_config : string -> list (string * value) -> result value.

Local Abbreviation str := (py_str py_repr).
Local Abbreviation py := (Pipeline.py py_repr parse_config).

Lemma strftime_error v fmt :
  type_of v <> T_datetime -> type_of v <> T_object ->
  strftime v fmt = Err (AttributeError "strftime").
Proof.
  intros Hd Ho. destruct v; cbn [type_of] in *; try congruence; reflexivity.
Qed.

Lemma get_error v k :
  type_of v <> T_dict -> type_of v <> T_object ->
  get v k = Err (AttributeError "get").
Proof.
  intros Hd Ho. destruct v; cbn [type_of] in *; try congruence; reflexivity.
Qed.

Lemma items_error v :
  type_of v <> T_dict -> type_of v <> T_object ->
  items v = Err (AttributeError "items").
Proof.
  intros Hd Ho. destruct v; cbn [type_of] in *; try congruence; reflexivity.
Qed.

(** [py] once the head of the program has resolved. *)
Lemma py_after_head self spec cfg head :
  Pipeline._spec_str self = Some spec -> spec <> "" ->
  parse_config spec (Pipeline._env self) = Ok (VDict cfg) ->
  head_resolves py_repr self cfg head ->
  py self
  = (tasks <- getitem (VDict cfg) "tasks" ;;
     task_items <- items tasks ;;
     outs <- for_each (task_texts py_repr) (Dict.sorted task_items) ;;
     Ok (Some (head ++ join (map fst outs) ++ join (map snd outs)))).
Proof.
  intros Hspec Hne Hparse
    (schedule & email & start_date & end_date & s1 & s2 & interval
     & Hsched & Hemail & Hstart & Hend & Hs1 & Hs2 & Hint & ->).
  rewrite (py_eq py_repr parse_config self spec cfg Hspec Hne Hparse).
  cbn [get getitem]. rewrite Hsched. cbn [bind get getitem].
  rewrite Hstart, Hend, Hemail. cbn [bind].
  rewrite (default_args_eq py_repr email _ _ _ _ Hs1 Hs2). cbn [bind].
  rewrite Hint. cbn [bind].
  destruct (Dict.lookup "tasks" cfg) as [tasks|]; cbn [bind]; [|reflexivity].
  destruct (items tasks); cbn [bind]; [|reflexivity].
  destruct (for_each _ _); cbn [bind]; [|reflexivity].
  rewrite dag_definition_eq. now rewrite !append_assoc.
Qed.

(** X12. A spec text that is absent or empty gives no program and no
    exception, whatever the parser would have made of it. *)
Theorem empty_spec_gives_no_program self :
  Pipeline._spec_str self = None \/ Pipeline._spec_str self = Some "" ->
  py self = Ok None.
Proof.
  intros [H|H]; unfold Pipeline.py; now rewrite H.
Qed.

(** X13. The exception of the parser is the exception of the
    generation; a parsed configuration that is no mapping, as None or a
    list is none, and a [schedule] that is no mapping, as a string is
    none, fail with an attribute error on [get]. *)
Theorem configuration_must_be_mappings self spec :
  Pipeline._spec_str self = Some spec -> spec <> "" ->
  (forall e,
     parse_config spec (Pipeline._env self) = Err e -> py self = Err e)
  /\ (forall v,
        parse_config spec (Pipeline._env self) = Ok v ->
        type_of v <> T_dict -> type_of v <> T_object ->
        py self = Err (AttributeError "get"))
  /\ (forall cfg v,
        parse_config spec (Pipeline._env self) = Ok (VDict cfg) ->
        Dict.lookup "schedule" cfg = Some v ->
        type_of v <> T_dict -> type_of v <> T_object ->
        py self = Err (AttributeError "get")).
Proof.
  intros Hspec Hne. split; [|split].
  - intros e Hparse. unfold Pipeline.py. rewrite Hspec.
    destruct spec; [contradiction|]. now rewrite Hparse.
  - intros v Hparse Hd Ho. unfold Pipeline.py. rewrite Hspec.
    destruct spec; [contradiction|]. rewrite Hparse. cbn [bind].
    now rewrite (get_error v "schedule" Hd Ho).
  - intros cfg v Hparse Hsched Hd Ho.
    rewrite (py_eq py_repr parse_config self spec cfg Hspec Hne Hparse).
    cbn [get]. rewrite Hsched. cbn [bind].
    now rewrite (get_error v "start_date" Hd Ho).
Qed.

(** X14. With a [schedule] mapping and an [email], a [start_date] or an
    [end_date] that is absent, or that is no date, as a string is none, makes
    the generation fail with the exception of its [strftime]: an attribute
    error for an absent date and for a string. *)
Theorem dates_must_format self spec cfg schedule email :
  Pipeline._spec_str self = Some spec -> spec <> "" ->
  parse_config spec (Pipeline._env self) = Ok (VDict cfg) ->
  Dict.lookup "schedule" cfg = Some (VDict schedule) ->
  Dict.lookup "email" cfg = Some email ->
  (Dict.lookup "start_date" schedule = None ->
   py self = Err (AttributeError "strftime"))
  /\ (forall start_date,
        Dict.lookup "start_date" schedule = Some start_date ->
        (forall e,
           strftime start_date Pipeline.datetime_format = Err e ->
           py self = Err e)
        /\ (type_of start_date = T_str ->
            py self = Err (AttributeError "strftime"))
        /\ (forall start_stamp,
              strftime start_date Pipeline.datetime_format = Ok start_stamp ->
              (Dict.lookup "end_date" schedule = None ->
               py self = Err (AttributeError "strftime"))
              /\ (forall end_date e,
                    Dict.lookup "end_date" schedule = Some end_date ->
                    strftime end_date Pipeline.datetime_format = Err e ->
                    py self = Err e))).
Proof.
  intros Hspec Hne Hparse Hsched Hemail.
  rewrite (py_eq py_repr parse_config self spec cfg Hspec Hne Hparse).
  cbn [get getitem]. rewrite Hsched. cbn [bind get getitem].
  rewrite Hemail. cbn [bind]. unfold Pipeline._get_default_args,
    Pipeline._get_datetime_expr_str.
  split.
  - intros H. now rewrite H.
  - intros start_date Hstart. rewrite Hstart.
    split; [|split].
    + intros e He. rewrite He.
      now destruct (Dict.lookup "end_date" schedule).
    + intros Hty.
      rewrite (strftime_error start_date Pipeline.datetime_format)
        by (rewrite Hty; discriminate).
      now destruct (Dict.lookup "end_date" schedule).
    + intros s1 Hs1. rewrite Hs1. cbn [bind]. split.
      * intros H. now rewrite H.
      * intros end_date e Hend He. now rewrite Hend, He.
Qed.

(** X15. With a [schedule] whose dates format and an [email], a
    [schedule] that has no [schedule_interval] fails with a key error on
    it. *)
Theorem schedule_interval_is_required
    self spec cfg schedule email start_date end_date start_stamp end_stamp :
  Pipeline._spec_str self = Some spec -> spec <> "" ->
  parse_config spec (Pipeline._env self) = Ok (VDict cfg) ->
  Dict.lookup "schedule" cfg = Some (VDict schedule) ->
  Dict.lookup "email" cfg = Some email ->
  Dict.lookup "start_date" schedule = Some start_date ->
  Dict.lookup "end_date" schedule = Some end_date ->
  strftime start_date Pipeline.datetime_format = Ok start_stamp ->
  strftime end_date Pipeline.datetime_format = Ok end_stamp ->
  Dict.lookup "schedule_interval" schedule = None ->
  py self = Err (KeyError "schedule_interval").
Proof.
  intros Hspec Hne Hparse Hsched Hemail Hstart Hend Hs1 Hs2 Hint.
  rewrite (py_eq py_repr parse_config self spec cfg Hspec Hne Hparse).
  cbn [get getitem]. rewrite Hsched. cbn [bind get getitem].
  rewrite Hstart, Hend, Hemail. cbn [bind].
  rewrite (default_args_eq py_repr email _ _ _ _ Hs1 Hs2). cbn [bind].
  now rewrite Hint.
Qed.

(** X16. When the head of the program resolves, [tasks] that is no
    mapping, as the None of an empty [tasks:] entry or a list is none,
    fails with an attribute error on [items]. *)
Theorem tasks_must_be_a_mapping self spec cfg head tasks :
  Pipeline._spec_str self = Some spec -> spec <> "" ->
  parse_config spec (Pipeline._env self) = Ok (VDict cfg) ->
  head_resolves py_repr self cfg head ->
  Dict.lookup "tasks" cfg = Some tasks ->
  type_of tasks <> T_dict -> type_of tasks <> T_object ->
  py self = Err (AttributeError "items").
Proof.
  intros Hspec Hne Hparse Hhead Htasks Hd Ho.
  rewrite (py_after_head self spec cfg head Hspec Hne Hparse Hhead).
  cbn [getitem]. rewrite Htasks. cbn [bind].
  now rewrite (items_error tasks Hd Ho).
Qed.

(** X17. When the head of the program resolves and the [tasks] mapping
    is empty, the program is the head alone: the preamble, the default
    arguments and the graph declaration. *)
Theorem no_tasks_gives_the_head self spec cfg head :
  Pipeline._spec_str self = Some spec -> spec <> "" ->
  parse_config spec (Pipeline._env self) = Ok (VDict cfg) ->
  head_resolves py_repr self cfg head ->
  Dict.lookup "tasks" cfg = Some (VDict []) ->
  py self = Ok (Some head).
Proof.
  intros Hspec Hne Hparse Hhead Htasks.
  rewrite (py_after_head self spec cfg head Hspec Hne Hparse Hhead).
  cbn [getitem]. rewrite Htasks. cbn [bind items Dict.sorted for_each
    map join fold_right]. now rewrite !append_nil_r.
Qed.

(** X18. When the head of the program resolves, the exception of the
    generation is that of the first task, in the order of the
    identifiers, that fails; the tasks after it are not visited, and
    there is no output. *)
Theorem first_failing_task_decides
    self spec cfg head tasks before task after outs e :
  Pipeline._spec_str self = Some spec -> spec <> "" ->
  parse_config spec (Pipeline._env self) = Ok (VDict cfg) ->
  head_resolves py_repr self cfg head ->
  Dict.lookup "tasks" cfg = Some (VDict tasks) ->
  Dict.sorted tasks = (before ++ task :: after)%list ->
  for_each (task_texts py_repr) before = Ok outs ->
  task_texts py_repr task = Err e ->
  py self = Err e.
Proof.
  intros Hspec Hne Hparse Hhead Htasks Hsorted Hbefore Htask.
  rewrite (py_after_head self spec cfg head Hspec Hne Hparse Hhead).
  cbn [getitem]. rewrite Htasks. cbn [bind items]. rewrite Hsorted.
  now rewrite (for_each_fails_at _ before task after outs e Hbefore Htask).
Qed.

End ProgramProperties.

(** ** The further properties on configurations *)

Section WorkedProperties.

Lemma well_formed_text_query_task : well_formed Edge.text_query_task.
Proof. solve_well_formed. Defined.

Lemma well_formed_legacy_task : well_formed Edge.legacy_task.
Proof. solve_well_formed. Defined.

Lemma head_of_example tasks :
  head_resolves Example.repr Example.pipeline
    (Edge.config_of (VDict Example.schedule) tasks) Edge.head.
Proof.
  exists Example.schedule, (VStr "me@example.com"),
    (Example.datetime "2017-01-01 00:00:00" "2017-01-01T00:00:00"),
    (Example.datetime "2017-01-02 00:00:00" "2017-01-02T00:00:00"),
    "2017-01-01T00:00:00", "2017-01-02T00:00:00", (VStr "@daily").
  repeat split.
Defined.

Lemma bigquery_rules_apply_to_witness :
  Pipeline._get_operator_classname Example.repr (VStr "bq.execute")
  = Ok "BigQueryOperator".
Proof.
  apply (proj2 (bigquery_rules_apply_to Example.repr "bq.execute")).
  right. left. reflexivity.
Defined.

Lemma classname_of_token_witness :
  Pipeline._get_operator_classname Example.repr (VStr "bq.extract")
  = Ok "BigQueryToCloudStorageOperator"
  /\ Pipeline._get_operator_classname Example.repr VNone
     = Ok "NoneOperator"
  /\ Pipeline._get_operator_classname Example.repr (VList [VStr "bash"])
     = Err TypeError.
Proof.
  destruct (classname_of_token Example.repr) as (Htable & Hstr & Hfail).
  split; [|split].
  - exact (Htable "bq.extract" "BigQueryToCloudStorage" eq_refl).
  - apply (Hstr VNone); discriminate.
  - apply (Hfail (VList [VStr "bash"])). left. reflexivity.
Defined.

Lemma query_without_sql_fails_witness :
  Pipeline._get_operator_definition Example.repr "f"
    (VDict Edge.text_query_task)
  = (VDict [ ("type", VStr "bq"); ("query", VStr "SELECT 1");
             ("use_legacy_sql", VBool false) ],
     Err (AttributeError "sql")).
Proof.
  refine (proj1 (query_without_sql_fails Example.repr "f"
                   Edge.text_query_task (VStr "bq") (VStr "SELECT 1")
                   well_formed_text_query_task eq_refl eq_refl eq_refl _)).
  intros sql H. discriminate H.
Defined.

Lemma string_up_stream_is_read_by_character_witness :
  Pipeline._get_dependency_definition Example.repr "t" (VStr "ab")
  = Ok "t.set_upstream(a)
t.set_upstream(b)
"
  /\ length (list_ascii_of_string "ab") = 2.
Proof.
  exact (string_up_stream_is_read_by_character Example.repr "t" "ab"
           eq_refl).
Defined.

Lemma other_operators_are_left_alone_witness :
  Pipeline._get_operator_definition Example.repr "t"
    (VDict Edge.bash_with_query)
  = (VDict Edge.bash_with_query,
     Ok "t = BashOperator(task_id='t_id', query='SELECT 1', dag=dag)
").
Proof.
  refine (other_operators_are_left_alone Example.repr "t"
            Edge.bash_with_query (VStr "bash") "BashOperator"
            eq_refl eq_refl _).
  discriminate.
Defined.

Lemma explicit_use_legacy_sql_is_kept_witness :
  exists before after,
    Pipeline._get_operator_definition Example.repr "t"
      (VDict Edge.legacy_task)
    = (VDict Edge.legacy_task,
       Ok ("t = BigQueryOperator(task_id='t_id'" ++ before ++
           ", use_legacy_sql=True" ++ after ++ ", dag=dag)
")).
Proof.
  refine (explicit_use_legacy_sql_is_kept Example.repr "t"
            Edge.legacy_task (VStr "bq.execute") (VBool true)
            well_formed_legacy_task eq_refl eq_refl eq_refl _).
  intros q Hq. discriminate Hq.
Defined.

Lemma no_up_stream_no_dependencies_witness :
  task_texts Example.repr ("t", VDict Edge.no_up_stream_task)
  = Ok ("t = BashOperator(task_id='t_id', bash_command='date', dag=dag)
", "").
Proof.
  exact (no_up_stream_no_dependencies Example.repr "t"
           Edge.no_up_stream_task _ eq_refl eq_refl).
Defined.

Lemma up_stream_must_be_iterable_witness :
  Pipeline._get_dependency_definition Example.repr "n" VNone
  = Err TypeError
  /\ task_texts Example.repr ("n", VDict Edge.null_up_stream_task)
     = Err TypeError.
Proof.
  assert (Hl : type_of VNone <> T_list) by discriminate.
  assert (Hs : type_of VNone <> T_str) by discriminate.
  assert (Hd : type_of VNone <> T_dict) by discriminate.
  assert (Ho : type_of VNone <> T_object) by discriminate.
  destruct (up_stream_must_be_iterable Example.repr "n" VNone Hl Hs Hd Ho)
    as (Hdeps & Htask).
  split; [exact Hdeps|].
  exact (Htask Edge.null_up_stream_task
           "n = BashOperator(task_id='n_id', dag=dag)
" eq_refl eq_refl).
Defined.

Lemma task_must_be_a_typed_mapping_witness :
  task_texts Example.repr ("t", VNone) = Err TypeError
  /\ Pipeline._get_operator_definition Example.repr "t"
       (VDict Edge.list_type_task)
     = (VDict Edge.list_type_task, Err TypeError).
Proof.
  destruct (task_must_be_a_typed_mapping Example.repr "t")
    as (Hvalue & Htype).
  split.
  - apply (Hvalue VNone); discriminate.
  - apply (Htype Edge.list_type_task (VList [VStr "bash"]) eq_refl).
    left. reflexivity.
Defined.

Lemma empty_spec_gives_no_program_witness :
  Pipeline.py Example.repr (Edge.parse_fails TypeError)
    (Pipeline.__init__ (Some "") "demo" None) = Ok None
  /\ Pipeline.py Example.repr (Edge.parse_fails TypeError)
       (Pipeline.__init__ None "demo" None) = Ok None.
Proof.
  split.
  - apply (empty_spec_gives_no_program Example.repr
             (Edge.parse_fails TypeError)). right. reflexivity.
  - apply (empty_spec_gives_no_program Example.repr
             (Edge.parse_fails TypeError)). left. reflexivity.
Defined.

Lemma configuration_must_be_mappings_witness :
  Pipeline.py Example.repr (Edge.parse_fails (KeyError "name"))
    Example.pipeline = Err (KeyError "name")
  /\ Pipeline.py Example.repr (Edge.parse_value VNone) Example.pipeline
     = Err (AttributeError "get")
  /\ Pipeline.py Example.repr
       (Example.parse (Edge.config_of (VStr "@daily") (VDict Example.tasks)))
       Example.pipeline
     = Err (AttributeError "get").
Proof.
  split; [|split].
  - exact (proj1 (configuration_must_be_mappings Example.repr
                    (Edge.parse_fails (KeyError "name")) Example.pipeline
                    "spec" eq_refl (spec_not_empty _ _))
                 (KeyError "name") eq_refl).
  - apply (proj1 (proj2 (configuration_must_be_mappings Example.repr
                           (Edge.parse_value VNone) Example.pipeline
                           "spec" eq_refl (spec_not_empty _ _)))
                 VNone eq_refl); discriminate.
  - apply (proj2 (proj2 (configuration_must_be_mappings Example.repr
                           (Example.parse
                              (Edge.config_of (VStr "@daily")
                                 (VDict Example.tasks)))
                           Example.pipeline
                           "spec" eq_refl (spec_not_empty _ _)))
                 (Edge.config_of (VStr "@daily") (VDict Example.tasks))
                 (VStr "@daily") eq_refl eq_refl); discriminate.
Defined.

Lemma dates_must_format_witness :
  Pipeline.py Example.repr
    (Example.parse (Edge.config_of (VDict Edge.schedule_of_strings)
                      (VDict Example.tasks)))
    Example.pipeline
  = Err (AttributeError "strftime")
  /\ Pipeline.py Example.repr
       (Example.parse (Edge.config_of (VDict Edge.schedule_no_end)
                         (VDict Example.tasks)))
       Example.pipeline
     = Err (AttributeError "strftime").
Proof.
  split.
  - apply (proj1 (proj2 (proj2
             (dates_must_format Example.repr
                (Example.parse (Edge.config_of
                                  (VDict Edge.schedule_of_strings)
                                  (VDict Example.tasks)))
                Example.pipeline "spec" _ Edge.schedule_of_strings
                (VStr "me@example.com")
                eq_refl (spec_not_empty _ _) eq_refl eq_refl eq_refl)
             (VStr "2017-01-01T00:00:00Z") eq_refl))).
    reflexivity.
  - apply (proj1 (proj2 (proj2 (proj2
             (dates_must_format Example.repr
                (Example.parse (Edge.config_of
                                  (VDict Edge.schedule_no_end)
                                  (VDict Example.tasks)))
                Example.pipeline "spec" _ Edge.schedule_no_end
                (VStr "me@example.com")
                eq_refl (spec_not_empty _ _) eq_refl eq_refl eq_refl)
             (Example.datetime "2017-01-01 00:00:00" "2017-01-01T00:00:00")
             eq_refl))
             "2017-01-01T00:00:00" eq_refl)).
    reflexivity.
Defined.

Lemma schedule_interval_is_required_witness :
  Pipeline.py Example.repr
    (Example.parse (Edge.config_of (VDict Edge.schedule_no_interval)
                      (VDict Example.tasks)))
    Example.pipeline
  = Err (KeyError "schedule_interval").
Proof.
  exact (schedule_interval_is_required Example.repr
           (Example.parse (Edge.config_of (VDict Edge.schedule_no_interval)
                             (VDict Example.tasks)))
           Example.pipeline "spec" _ Edge.schedule_no_interval
           (VStr "me@example.com")
           (Example.datetime "2017-01-01 00:00:00" "2017-01-01T00:00:00")
           (Example.datetime "2017-01-02 00:00:00" "2017-01-02T00:00:00")
           "2017-01-01T00:00:00" "2017-01-02T00:00:00"
           eq_refl (spec_not_empty _ _) eq_refl eq_refl eq_refl
           eq_refl eq_refl eq_refl eq_refl eq_refl).
Defined.

Lemma tasks_must_be_a_mapping_witness :
  Pipeline.py Example.repr
    (Example.parse (Edge.config_of (VDict Example.schedule) VNone))
    Example.pipeline
  = Err (AttributeError "items").
Proof.
  apply (tasks_must_be_a_mapping Example.repr
           (Example.parse (Edge.config_of (VDict Example.schedule) VNone))
           Example.pipeline "spec" _ Edge.head VNone
           eq_refl (spec_not_empty _ _) eq_refl (head_of_example VNone)
           eq_refl); discriminate.
Defined.

Lemma no_tasks_gives_the_head_witness :
  Pipeline.py Example.repr
    (Example.parse (Edge.config_of (VDict Example.schedule) (VDict [])))
    Example.pipeline
  = Ok (Some Edge.head).
Proof.
  exact (no_tasks_gives_the_head Example.repr
           (Example.parse (Edge.config_of (VDict Example.schedule)
                             (VDict [])))
           Example.pipeline "spec" _ Edge.head
           eq_refl (spec_not_empty _ _) eq_refl
           (head_of_example (VDict [])) eq_refl).
Defined.

Lemma first_failing_task_decides_witness :
  Pipeline.py Example.repr
    (Example.parse (Edge.config_of (VDict Example.schedule)
                      (VDict Edge.two_failing_tasks)))
    Example.pipeline
  = Err (AttributeError "sql").
Proof.
  exact (first_failing_task_decides Example.repr
           (Example.parse (Edge.config_of (VDict Example.schedule)
                             (VDict Edge.two_failing_tasks)))
           Example.pipeline "spec" _ Edge.head Edge.two_failing_tasks
           [] ("f", VDict Edge.text_query_task)
           [ ("n", VDict Edge.null_up_stream_task) ] []
           (AttributeError "sql")
           eq_refl (spec_not_empty _ _) eq_refl
           (head_of_example (VDict Edge.two_failing_tasks))
           eq_refl eq_refl eq_refl eq_refl).
Defined.

End WorkedProperties.
